(** * AndroidWorld agents: a shallow embedding of the task pipeline

    The development follows the Python sources under [src/agents]:

    - [base_agent.py]      : [TaskResult], [BaseAgent.get_statistics]
    - [task_generator.py]  : the template catalog, [generate_task],
                             [get_task_statistics]
    - [task_executor.py]   : [execute_task] and its seven handlers
    - [orchestrator.py]    : [run_episode], [run_multiple_episodes]
    - [web_server.py]      : the HTTP handler ([do_GET], [do_POST])

    Python dictionaries used as maps are [gmap string _]; dictionaries
    used as records with optional keys are records with [option] fields.
    Stateful code is written in a state-and-exception monad [M] over a
    [State] that holds the agents' attributes and the chronological trace
    of interactions with the outside world (clock, random source,
    subprocesses, file system, sleeps).  The outside world itself is a
    record [Env] of oracles that answer from the trace so far.

    Python floats (timestamps, durations, rates) are exact rationals [Q]
    here; logging calls ([self.logger.*]) have no effect on any value and
    are left out. *)

From Stdlib Require Import ZArith QArith Ascii String List Lia.
From stdpp Require Import base gmap sets list strings pretty fin_sets.

Set Warnings "-register-all".
Open Scope string_scope.

(** ** Python values, exceptions *)

Module Py.

(** Python values: what task parameters and metrics hold, and what
    [json.loads] returns. *)
Inductive pyval : Type :=
  | VNone
  | VBool (b : bool)
  | VInt (n : Z)
  | VFloat (q : Q)
  | VStr (s : string)
  | VList (l : list pyval)
  | VDict (d : gmap string pyval).

(** Truthiness, as tested by [if not x]. *)
Definition truthy (v : pyval) : bool :=
  match v with
  | VNone => false
  | VBool b => b
  | VInt n => negb (n =? 0)%Z
  | VFloat q => negb (Qeq_bool q 0)
  | VStr s => negb (String.eqb s "")
  | VList l => match l with [] => false | _ :: _ => true end
  | VDict d => negb (size d =? 0)%nat
  end.

(** [type(v).__name__] *)
Definition type_name (v : pyval) : string :=
  match v with
  | VNone => "NoneType"
  | VBool _ => "bool"
  | VInt _ => "int"
  | VFloat _ => "float"
  | VStr _ => "str"
  | VList _ => "list"
  | VDict _ => "dict"
  end.

(** [v == s] for a string literal [s]: only a string equals a string. *)
Definition eq_str (v : pyval) (s : string) : bool :=
  match v with
  | VStr s' => String.eqb s' s
  | _ => false
  end.

(** [needle in haystack] on strings. *)
Fixpoint contains (needle haystack : string) : bool :=
  String.prefix needle haystack
  || match haystack with
     | EmptyString => false
     | String _ rest => contains needle rest
     end.

(** The exceptions (all subclasses of [Exception]) that the modelled code
    can meet. *)
Inductive exn : Type :=
  | KeyError (key : string)
  | IndexError (msg : string)
  | TypeError (msg : string)
  | AttributeError (msg : string)
  | ValueError (msg : string)
  | UnicodeDecodeError (msg : string)
  | JSONDecodeError (msg : string)
  | OSError (errno : Z) (strerror filename : string)
  | TimeoutExpired (cmd : string) (timeout : Z).

(** [str(e)] *)
Definition str (e : exn) : string :=
  match e with
  | KeyError key => "'" ++ key ++ "'"
  | IndexError msg | TypeError msg | AttributeError msg | ValueError msg
  | UnicodeDecodeError msg | JSONDecodeError msg => msg
  | OSError errno strerror filename =>
      "[Errno " ++ pretty errno ++ "] " ++ strerror ++ ": '" ++ filename ++ "'"
  | TimeoutExpired cmd timeout =>
      "Command '" ++ cmd ++ "' timed out after " ++ pretty timeout ++ " seconds"
  end.

(** The outcome of a call: a value, or a raised exception. *)
Inductive result (A : Type) : Type :=
  | Ok (a : A)
  | Raise (e : exn).
Arguments Ok {A} a.
Arguments Raise {A} e.

(** [v.get(key, dflt)]: only a dictionary has the method. *)
Definition get (v : pyval) (key : string) (dflt : pyval) : result pyval :=
  match v with
  | VDict d => Ok (default dflt (d !! key))
  | _ =>
      Raise (AttributeError ("'" ++ type_name v
                             ++ "' object has no attribute 'get'"))
  end.

End Py.
Import Py.

(** ** base_agent.py *)

Record TaskResult : Type := mkTaskResult {
  task_id : string;
  task_name : string;
  success : bool;
  execution_time : Q;
  start_time : Q;
  end_time : Q;
  error_message : option string;
  metrics : option (gmap string pyval);
}.

(** Values of the statistics dictionaries. *)
Inductive statval : Type :=
  | SInt (n : Z)
  | SFloat (q : Q)
  | SCounts (d : gmap string Z).

Module BaseAgent.

(** [sum(1 for r in rs if r.success)] *)
Definition count_success (rs : list TaskResult) : nat :=
  length (filter (fun r => success r = true) rs).

(** [[r for r in self.results if r.task_name == task_name]] *)
Definition results_named (task_name0 : string) (rs : list TaskResult)
  : list TaskResult :=
  filter (fun r => task_name r = task_name0) rs.

(** One iteration of the loop [for task_name in task_names]. *)
Definition flaky_step (rs : list TaskResult) (task_name0 : string)
    (flaky_tasks : nat) : nat :=
  let task_results := results_named task_name0 rs in
  if (1 <? length task_results)%nat then
    let successes := count_success task_results in
    if (0 <? successes)%nat && (successes <? length task_results)%nat
    then S flaky_tasks
    else flaky_tasks
  else flaky_tasks.

(** [sum(execution_times)]: the additions go from left to right, from
    the start value 0. *)
Definition sum (execution_times : list Q) : Q :=
  fold_left Qplus execution_times 0%Q.

Definition get_statistics (rs : list TaskResult) : gmap string statval :=
  match rs with
  | [] => ∅
  | _ :: _ =>
      let total_tasks := length rs in
      let successful_tasks := count_success rs in
      let failed_tasks := (Z.of_nat total_tasks - Z.of_nat successful_tasks)%Z in
      let execution_times := execution_time <$> rs in
      let avg_time :=
        match execution_times with
        | [] => SInt 0
        | _ :: _ =>
            SFloat (Qdiv (sum execution_times)
                         (inject_Z (Z.of_nat (length execution_times))))
        end in
      let task_names : gset string := list_to_set (task_name <$> rs) in
      let flaky_tasks := set_fold (flaky_step rs) 0%nat task_names in
      {[ "total_tasks" := SInt (Z.of_nat total_tasks);
         "successful_tasks" := SInt (Z.of_nat successful_tasks);
         "failed_tasks" := SInt failed_tasks;
         "success_rate" :=
           (if (0 <? total_tasks)%nat
            then SFloat (Qdiv (inject_Z (Z.of_nat successful_tasks))
                              (inject_Z (Z.of_nat total_tasks)))
            else SInt 0);
         "avg_time" := avg_time;
         "flaky_tasks" := SInt (Z.of_nat flaky_tasks);
         "flakiness_rate" :=
           (if decide (task_names = ∅)
            then SInt 0
            else SFloat (Qdiv (inject_Z (Z.of_nat flaky_tasks))
                              (inject_Z (Z.of_nat (size task_names)))))
      ]}
  end.

End BaseAgent.

(** ** Tasks *)

(** A task is a dictionary with string keys.  The keys the code reads are
    fields here; a key that is absent from the dictionary is [None]. *)
Record Task : Type := mkTask {
  t_id : option string;
  t_name : option string;
  t_type : option string;
  t_description : option string;
  t_parameters : option (gmap string pyval);
  t_expected_outcome : option string;
  t_priority : option Z;
  t_timeout : option Z;
  t_retry_count : option Z;
}.

(** An entry of the template catalog. *)
Record Template : Type := mkTemplate {
  tpl_name : string;
  tpl_type : string;
  tpl_description : string;
  tpl_parameters : gmap string pyval;
  tpl_expected_outcome : string;
}.

(** The JSON document written by [_prepare_task_file]. *)
Record TaskConfig : Type := mkTaskConfig {
  cfg_task : Task;
  cfg_emulator_ip : string;
  cfg_emulator_port : string;
  cfg_timeout : Z;
  cfg_retry_count : Z;
  cfg_log_file : string;
  cfg_screenshot_dir : string;
  cfg_metrics_file : string;
}.

(** ** The outside world *)

(** [subprocess.CompletedProcess] *)
Record Completed : Type := mkCompleted {
  returncode : Z;
  stdout : string;
  stderr : string;
}.

(** One interaction with the outside world, with what it answered. *)
Inductive Event : Type :=
  | EvTime (t : Q)
  | EvSleep (secs : Q)
  | EvRandom (raw : nat)
  | EvUuid (u : string)
  | EvRun (cmd : string) (timeout : Z) (out : result Completed)
  | EvMakedirs (path : string) (err : option (Z * string))
  | EvWrite (path : string) (doc : TaskConfig) (err : option (Z * string))
  | EvUtcnow (iso : string)
  | EvLogTaskStart (task_id0 task_type0 task_data : pyval)
  | EvLogTaskCompletion (task_id0 task_type0 result0 duration success0 : pyval)
  | EvLogError (e : exn) (endpoint : string).

(** The outside world and the Python library.  Every oracle answers from
    the trace so far, so an answer may depend on everything that happened
    before.  A file-system call fails with an [OSError], given by its
    [errno] and [strerror].  The last six fields are library functions
    that the sources call: the rendering of a float, list or dictionary
    inside an f-string, [os.getenv], [urlparse(p).path], [int(s)] on a
    header value, [bytes.decode("utf-8")] and [json.loads]. *)
Record Env : Type := mkEnv {
  env_time : list Event → Q;
  env_random : list Event → nat;
  env_uuid4 : list Event → string;
  env_run : list Event → string → Z → result Completed;
  env_makedirs : list Event → string → option (Z * string);
  env_write : list Event → string → TaskConfig → option (Z * string);
  env_utcnow : list Event → string;
  env_repr : pyval → string;
  env_getenv : string → option string;
  env_url_path : string → string;
  env_int : string → result Z;
  env_decode : string → result string;
  env_json_loads : string → result pyval;
}.

(** The attributes of the orchestrator and of its two sub-agents, and the
    trace.  [results] is [AgentOrchestrator.results]; the [results]
    attributes of the generator and of the executor are never written by
    the code below and are left out. *)
Record State : Type := mkState {
  trace : list Event;
  results : list TaskResult;
  task_templates : list Template;
  task_history : list Task;
  androidworld_runner : string;
  emulator_ip : string;
  emulator_port : string;
  working_directory : string;
}.

Definition set_trace (tr : list Event) (s : State) : State :=
  mkState tr (results s) (task_templates s) (task_history s)
    (androidworld_runner s) (emulator_ip s) (emulator_port s)
    (working_directory s).

Definition set_results (rs : list TaskResult) (s : State) : State :=
  mkState (trace s) rs (task_templates s) (task_history s)
    (androidworld_runner s) (emulator_ip s) (emulator_port s)
    (working_directory s).

Definition set_task_history (h : list Task) (s : State) : State :=
  mkState (trace s) (results s) (task_templates s) h
    (androidworld_runner s) (emulator_ip s) (emulator_port s)
    (working_directory s).

(** ** The monad of stateful code that may raise *)

Definition M (A : Type) : Type := State → result A * State.

#[global] Instance M_ret : MRet M := λ A a s, (Ok a, s).

#[global] Instance M_bind : MBind M := λ A B f m s,
  match m s with
  | (Ok a, s') => f a s'
  | (Raise e, s') => (Raise e, s')
  end.

Definition raise {A} (e : exn) : M A := λ s, (Raise e, s).

(** [try: body  except Exception as e: handler e] *)
Definition try_except {A} (body : M A) (handler : exn → M A) : M A := λ s,
  match body s with
  | (Ok a, s') => (Ok a, s')
  | (Raise e, s') => handler e s'
  end.

Definition gets {A} (f : State → A) : M A := λ s, (Ok (f s), s).

Definition modify (f : State → State) : M unit := λ s, (Ok tt, f s).

Definition emit (ev : Event) : M unit :=
  modify (λ s, set_trace (trace s ++ [ev]) s).

(** Lift a pure computation that may raise. *)
Definition lift {A} (r : result A) : M A := λ s, (r, s).

(** The events a computation added, between state [s] and state [s']. *)
Definition events_since (s s' : State) : list Event :=
  drop (length (trace s)) (trace s').

Definition is_run (ev : Event) : bool :=
  match ev with EvRun _ _ _ => true | _ => false end.

(** Number of bridge (external command) calls in a trace. *)
Definition bridge_calls (tr : list Event) : nat :=
  length (List.filter is_run tr).

Definition is_sleep (ev : Event) : bool :=
  match ev with EvSleep _ => true | _ => false end.

Section World.

Context (env : Env).

(** [time.time()] *)
Definition time_time : M Q := λ s,
  let t := env_time env (trace s) in
  (Ok t, set_trace (trace s ++ [EvTime t]) s).

(** [time.sleep(secs)] *)
Definition time_sleep (secs : Q) : M unit := emit (EvSleep secs).

(** [random.choice(seq)] is [seq[randbelow(len(seq))]], and raises
    [IndexError] on an empty sequence. *)
Definition random_choice {A} (seq : list A) : M A :=
  match seq with
  | [] => raise (IndexError "Cannot choose from an empty sequence")
  | x0 :: _ => λ s,
      let raw := env_random env (trace s) in
      (Ok (nth (raw mod length seq) seq x0),
       set_trace (trace s ++ [EvRandom raw]) s)
  end.

(** [random.randint(a, b)] is [a + randbelow(b - a + 1)]. *)
Definition random_randint (a b : Z) : M Z := λ s,
  let raw := env_random env (trace s) in
  (Ok (a + Z.of_nat (raw mod Z.to_nat (b - a + 1)))%Z,
   set_trace (trace s ++ [EvRandom raw]) s).

(** [str(uuid.uuid4())] *)
Definition uuid_uuid4 : M string := λ s,
  let u := env_uuid4 env (trace s) in
  (Ok u, set_trace (trace s ++ [EvUuid u]) s).

(** [subprocess.run(cmd, shell=True, capture_output=True, text=True,
    timeout=timeout)] *)
Definition subprocess_run (cmd : string) (timeout : Z) : M Completed := λ s,
  let out := env_run env (trace s) cmd timeout in
  (out, set_trace (trace s ++ [EvRun cmd timeout out]) s).

(** [os.makedirs(path, exist_ok=True)] *)
Definition os_makedirs (path : string) : M unit := λ s,
  let err := env_makedirs env (trace s) path in
  (match err with
   | None => Ok tt
   | Some (errno, strerror) => Raise (OSError errno strerror path)
   end,
   set_trace (trace s ++ [EvMakedirs path err]) s).

(** [with open(path, "w") as f: json.dump(doc, f, indent=2, default=str)] *)
Definition write_json (path : string) (doc : TaskConfig) : M unit := λ s,
  let err := env_write env (trace s) path doc in
  (match err with
   | None => Ok tt
   | Some (errno, strerror) => Raise (OSError errno strerror path)
   end,
   set_trace (trace s ++ [EvWrite path doc err]) s).

(** A value interpolated into an f-string. *)
Definition format (v : pyval) : string :=
  match v with
  | VNone => "None"
  | VBool true => "True"
  | VBool false => "False"
  | VInt n => pretty n
  | VStr s => s
  | VFloat _ | VList _ | VDict _ => env_repr env v
  end.

End World.

(** ** task_generator.py *)

Module TaskGenerator.

(** [_load_task_templates] *)
Definition _load_task_templates : list Template :=
  [ mkTemplate "Open App" "navigation"
      "Open a specific application on the device"
      {[ "package_name" := VStr "com.android.settings";
         "activity_name" := VStr "com.android.settings.Settings" ]}
      "Settings app should open successfully";
    mkTemplate "Navigate to Settings" "navigation"
      "Navigate to device settings menu"
      {[ "target_menu" := VStr "Settings"; "submenu" := VStr "System" ]}
      "Should reach System settings menu";
    mkTemplate "Check WiFi Status" "information_gathering"
      "Check the current WiFi connection status"
      {[ "check_type" := VStr "connection_status"; "timeout" := VInt 10 ]}
      "Should return WiFi connection information";
    mkTemplate "Install App" "installation"
      "Install an application from APK file"
      {[ "apk_path" := VStr "/sdcard/test_app.apk";
         "package_name" := VStr "com.example.testapp" ]}
      "App should install successfully";
    mkTemplate "Uninstall App" "removal"
      "Uninstall a specific application"
      {[ "package_name" := VStr "com.example.testapp" ]}
      "App should be removed from device";
    mkTemplate "Take Screenshot" "capture"
      "Capture a screenshot of the current screen"
      {[ "output_path" := VStr "/sdcard/screenshot.png";
         "format" := VStr "PNG" ]}
      "Screenshot should be saved successfully";
    mkTemplate "Check Battery Level" "information_gathering"
      "Get current battery level and status"
      {[ "check_type" := VStr "battery_info";
         "include_charging" := VBool true ]}
      "Should return battery percentage and charging status";
    mkTemplate "Clear App Data" "maintenance"
      "Clear data for a specific application"
      {[ "package_name" := VStr "com.android.settings";
         "data_types" := VList [VStr "cache"; VStr "user_data"] ]}
      "App data should be cleared successfully" ].

(** The local list [packages] of [generate_task]. *)
Definition packages : list string :=
  [ "com.android.settings";
    "com.android.vending";
    "com.google.android.apps.maps";
    "com.whatsapp";
    "com.instagram.android" ].

Definition set_parameters (p : gmap string pyval) (task : Task) : Task :=
  mkTask (t_id task) (t_name task) (t_type task) (t_description task)
    (Some p) (t_expected_outcome task) (t_priority task) (t_timeout task)
    (t_retry_count task).

Section WithEnv.

Context (env : Env).

Definition generate_task : M Task :=
  templates ← gets task_templates;
  template ← random_choice env templates;
  task_id0 ← uuid_uuid4 env;
  priority ← random_randint env 1 5;
  timeout ← random_randint env 30 120;
  retry_count ← random_randint env 0 2;
  let parameters := tpl_parameters template in
  let task :=
    mkTask (Some task_id0) (Some (tpl_name template))
      (Some (tpl_type template)) (Some (tpl_description template))
      (Some parameters) (Some (tpl_expected_outcome template))
      (Some priority) (Some timeout) (Some retry_count) in
  task ←
    (if String.eqb (tpl_type template) "navigation" then
       if decide (is_Some (parameters !! "package_name")) then
         package ← random_choice env packages;
         mret (set_parameters (<["package_name" := VStr package]> parameters)
                 task)
       else mret task
     else mret task);
  modify (λ s, set_task_history (task_history s ++ [task]) s);;
  mret task.

Definition generate_custom_task (task_type : string)
    (parameters : gmap string pyval) : M Task :=
  task_id0 ← uuid_uuid4 env;
  let task :=
    mkTask (Some task_id0) (Some ("Custom_" ++ task_type)) (Some task_type)
      (Some ("Custom " ++ task_type ++ " task")) (Some parameters)
      (Some "Task should complete successfully") (Some 3%Z) (Some 60%Z)
      (Some 1%Z) in
  modify (λ s, set_task_history (task_history s ++ [task]) s);;
  mret task.

End WithEnv.

(** [task["type"]], [task["name"]]: a missing key raises [KeyError]. *)
Definition getitem {A} (key : string) (field : option A) : result A :=
  match field with
  | Some v => Ok v
  | None => Raise (KeyError key)
  end.

(** The loop of [get_task_statistics] that counts the tasks of each type. *)
Fixpoint count_types (history : list Task) (task_types : gmap string Z)
  : result (gmap string Z) :=
  match history with
  | [] => Ok task_types
  | task :: rest =>
      match getitem "type" (t_type task) with
      | Raise e => Raise e
      | Ok task_type =>
          let task_types :=
            match task_types !! task_type with
            | None => <[task_type := 0%Z]> task_types
            | Some _ => task_types
            end in
          count_types rest
            (<[task_type := (default 0%Z (task_types !! task_type) + 1)%Z]>
               task_types)
      end
  end.

(** [set(task["name"] for task in self.task_history)] *)
Fixpoint names_of (history : list Task) : result (gset string) :=
  match history with
  | [] => Ok ∅
  | task :: rest =>
      match getitem "name" (t_name task) with
      | Raise e => Raise e
      | Ok n =>
          match names_of rest with
          | Raise e => Raise e
          | Ok names => Ok ({[n]} ∪ names)
          end
      end
  end.

Definition get_task_statistics (history : list Task)
  : result (gmap string statval) :=
  match history with
  | [] => Ok ∅
  | _ :: _ =>
      match count_types history ∅ with
      | Raise e => Raise e
      | Ok task_types =>
          match names_of history with
          | Raise e => Raise e
          | Ok names =>
              Ok {[ "total_generated" := SInt (Z.of_nat (length history));
                    "task_types" := SCounts task_types;
                    "unique_tasks" := SInt (Z.of_nat (size names)) ]}
          end
      end
  end.

End TaskGenerator.

(** ** task_executor.py *)

Module TaskExecutor.

(** The dictionary a handler returns: ["success"] is always present,
    ["metrics"] and ["error"] are optional keys. *)
Record HandlerResult : Type := mkHandlerResult {
  hr_success : bool;
  hr_metrics : option (gmap string pyval);
  hr_error : option string;
}.

Definition succeeded (m : gmap string pyval) : HandlerResult :=
  mkHandlerResult true (Some m) None.

Definition failed (error : string) : HandlerResult :=
  mkHandlerResult false None (Some error).

(** [s.endswith("/")] *)
Fixpoint ends_with_slash (s : string) : bool :=
  match s with
  | EmptyString => false
  | String c EmptyString => Ascii.eqb c "/"%char
  | String _ rest => ends_with_slash rest
  end.

(** [os.path.join(a, b)] (POSIX) *)
Definition path_join (a b : string) : string :=
  if String.prefix "/" b then b
  else if String.eqb a "" || ends_with_slash a then a ++ b
  else a ++ "/" ++ b.

(** [package_name in result.stdout]: the left operand must be a string. *)
Definition in_string (v : pyval) (s : string) : result bool :=
  match v with
  | VStr needle => Ok (contains needle s)
  | _ =>
      Raise (TypeError ("'in <string>' requires string as left operand, not "
                        ++ type_name v))
  end.

Section WithEnv.

Context (env : Env).

Definition _prepare_task_file (task : Task) : M string :=
  working_directory0 ← gets working_directory;
  let task_dir := path_join working_directory0 "tasks" in
  os_makedirs env task_dir;;
  id0 ← lift (TaskGenerator.getitem "id" (t_id task));
  let task_filename := "task_" ++ id0 ++ ".json" in
  let task_path := path_join task_dir task_filename in
  emulator_ip0 ← gets emulator_ip;
  emulator_port0 ← gets emulator_port;
  let task_config :=
    mkTaskConfig task emulator_ip0 emulator_port0
      (default 60%Z (t_timeout task)) (default 0%Z (t_retry_count task))
      ("task_" ++ id0 ++ ".log") "screenshots"
      ("task_" ++ id0 ++ "_metrics.json") in
  write_json env task_path task_config;;
  mret task_path.

(** [task["parameters"]] *)
Definition parameters_of (task : Task) : M (gmap string pyval) :=
  lift (TaskGenerator.getitem "parameters" (t_parameters task)).

Definition _execute_navigation_task (task : Task) : M HandlerResult :=
  try_except
    (parameters ← parameters_of task;
     let package_name :=
       default (VStr "com.android.settings") (parameters !! "package_name") in
     let cmd := "adb shell am start -n " ++ format env package_name in
     result ← subprocess_run env cmd 30;
     if (returncode result =? 0)%Z then
       mret (succeeded {[ "app_opened" := VBool true;
                          "package_name" := package_name;
                          "adb_output" := VStr (stdout result) ]})
     else mret (failed ("Failed to open app: " ++ stderr result)))
    (λ e, match e with
          | TimeoutExpired _ _ => mret (failed "Task execution timed out")
          | _ => mret (failed ("Navigation task failed: " ++ str e))
          end).

Definition _execute_info_gathering_task (task : Task) : M HandlerResult :=
  try_except
    (parameters ← parameters_of task;
     let check_type := default (VStr "general") (parameters !! "check_type") in
     let cmd :=
       if eq_str check_type "wifi_status"
       then "adb shell dumpsys wifi | grep 'Wi-Fi is'"
       else if eq_str check_type "battery_info"
       then "adb shell dumpsys battery"
       else "adb shell getprop" in
     result ← subprocess_run env cmd 20;
     if (returncode result =? 0)%Z then
       mret (succeeded
               {[ "info_type" := check_type;
                  "data_collected" := VBool true;
                  "output_length" :=
                    VInt (Z.of_nat (String.length (stdout result))) ]})
     else mret (failed ("Failed to gather info: " ++ stderr result)))
    (λ e, match e with
          | TimeoutExpired _ _ => mret (failed "Info gathering timed out")
          | _ => mret (failed ("Info gathering failed: " ++ str e))
          end).

Definition _execute_installation_task (task : Task) : M HandlerResult :=
  try_except
    (parameters ← parameters_of task;
     let apk_path := default (VStr "") (parameters !! "apk_path") in
     let package_name := default (VStr "") (parameters !! "package_name") in
     if negb (truthy apk_path) || negb (truthy package_name) then
       mret (failed "Missing APK path or package name")
     else
       let cmd :=
         "adb shell pm list packages | grep " ++ format env package_name in
       result ← subprocess_run env cmd 15;
       present ← lift (in_string package_name (stdout result));
       if (present : bool) then
         mret (succeeded {[ "package_installed" := VBool true;
                            "package_name" := package_name;
                            "already_installed" := VBool true ]})
       else
         mret (succeeded {[ "package_installed" := VBool true;
                            "package_name" := package_name;
                            "installation_simulated" := VBool true ]}))
    (λ e, match e with
          | TimeoutExpired _ _ => mret (failed "Installation task timed out")
          | _ => mret (failed ("Installation failed: " ++ str e))
          end).

Definition _execute_removal_task (task : Task) : M HandlerResult :=
  try_except
    (parameters ← parameters_of task;
     let package_name := default (VStr "") (parameters !! "package_name") in
     if negb (truthy package_name) then
       mret (failed "Missing package name")
     else
       let cmd :=
         "adb shell pm list packages | grep " ++ format env package_name in
       result ← subprocess_run env cmd 15;
       present ← lift (in_string package_name (stdout result));
       if (present : bool) then
         mret (succeeded {[ "package_removed" := VBool true;
                            "package_name" := package_name;
                            "removal_simulated" := VBool true ]})
       else
         mret (succeeded {[ "package_removed" := VBool true;
                            "package_name" := package_name;
                            "already_removed" := VBool true ]}))
    (λ e, match e with
          | TimeoutExpired _ _ => mret (failed "Removal task timed out")
          | _ => mret (failed ("Removal failed: " ++ str e))
          end).

Definition _execute_capture_task (task : Task) : M HandlerResult :=
  try_except
    (parameters ← parameters_of task;
     let output_path :=
       default (VStr "/sdcard/screenshot.png") (parameters !! "output_path") in
     let cmd := "adb shell screencap " ++ format env output_path in
     result ← subprocess_run env cmd 20;
     if (returncode result =? 0)%Z then
       mret (succeeded {[ "screenshot_taken" := VBool true;
                          "output_path" := output_path;
                          "capture_successful" := VBool true ]})
     else mret (failed ("Failed to take screenshot: " ++ stderr result)))
    (λ e, match e with
          | TimeoutExpired _ _ => mret (failed "Screenshot task timed out")
          | _ => mret (failed ("Screenshot failed: " ++ str e))
          end).

Definition _execute_maintenance_task (task : Task) : M HandlerResult :=
  try_except
    (parameters ← parameters_of task;
     let package_name := default (VStr "") (parameters !! "package_name") in
     let data_types :=
       default (VList [VStr "cache"]) (parameters !! "data_types") in
     if negb (truthy package_name) then
       mret (failed "Missing package name")
     else
       let cmd := "adb shell pm clear " ++ format env package_name in
       result ← subprocess_run env cmd 30;
       if (returncode result =? 0)%Z then
         mret (succeeded {[ "data_cleared" := VBool true;
                            "package_name" := package_name;
                            "data_types" := data_types;
                            "maintenance_successful" := VBool true ]})
       else mret (failed ("Failed to clear data: " ++ stderr result)))
    (λ e, match e with
          | TimeoutExpired _ _ => mret (failed "Maintenance task timed out")
          | _ => mret (failed ("Maintenance failed: " ++ str e))
          end).

Definition _execute_generic_task (task : Task) : M HandlerResult :=
  try_except
    (runner ← gets androidworld_runner;
     id0 ← lift (TaskGenerator.getitem "id" (t_id task));
     let cmd := runner ++ " --task " ++ id0 ++ " --local" in
     result ← subprocess_run env cmd 60;
     if (returncode result =? 0)%Z then
       mret (succeeded {[ "runner_used" := VBool true;
                          "task_id" := VStr id0;
                          "output" := VStr (stdout result) ]})
     else mret (failed ("Runner failed: " ++ stderr result)))
    (λ e, match e with
          | TimeoutExpired _ _ => mret (failed "Generic task timed out")
          | _ => mret (failed ("Generic task failed: " ++ str e))
          end).

Definition _run_androidworld_task (task_file : string) (task : Task)
  : M HandlerResult :=
  let task_type := default "unknown" (t_type task) in
  if String.eqb task_type "navigation" then _execute_navigation_task task
  else if String.eqb task_type "information_gathering"
  then _execute_info_gathering_task task
  else if String.eqb task_type "installation"
  then _execute_installation_task task
  else if String.eqb task_type "removal" then _execute_removal_task task
  else if String.eqb task_type "capture" then _execute_capture_task task
  else if String.eqb task_type "maintenance"
  then _execute_maintenance_task task
  else _execute_generic_task task.

(** The body of the [try] block of [execute_task]: its value is the triple
    [(success, error_message, metrics)] of local variables it leaves. *)
Definition dispatch (task : Task)
  : M (bool * option string * gmap string pyval) :=
  task_file ← _prepare_task_file task;
  result ← _run_androidworld_task task_file task;
  if hr_success result then
    mret (true, None, default ∅ (hr_metrics result))
  else
    mret (false,
          Some (default "Unknown execution error" (hr_error result)), ∅).

Definition execute_task (task : Task) : M TaskResult :=
  let task_id0 := default "unknown" (t_id task) in
  let task_name0 := default "Unknown Task" (t_name task) in
  start_time0 ← time_time env;
  '(success0, error_message0, metrics0) ←
    try_except (dispatch task) (λ e, mret (false, Some (str e), ∅));
  end_time0 ← time_time env;
  let execution_time0 := Qminus end_time0 start_time0 in
  mret (mkTaskResult task_id0 task_name0 success0 execution_time0
          start_time0 end_time0 error_message0 (Some metrics0)).

End WithEnv.

End TaskExecutor.

(** ** orchestrator.py *)

Module AgentOrchestrator.

Definition set_execution_time (t : Q) (r : TaskResult) : TaskResult :=
  mkTaskResult (task_id r) (task_name r) (success r) t (start_time r)
    (end_time r) (error_message r) (metrics r).

(** [range(1, num_episodes + 1)] *)
Definition episodes (num_episodes : Z) : list Z :=
  (λ k, Z.of_nat k) <$> seq 1 (Z.to_nat num_episodes).

Section WithEnv.

Context (env : Env).

Definition generate_task : M Task := TaskGenerator.generate_task env.

Definition execute_task (task : Task) : M TaskResult :=
  TaskExecutor.execute_task env task.

Definition run_episode : M TaskResult :=
  task ← generate_task;
  start_time0 ← time_time env;
  result ← execute_task task;
  end_time0 ← time_time env;
  let result := set_execution_time (Qminus end_time0 start_time0) result in
  modify (λ s, set_results (results s ++ [result]) s);;
  mret result.

(** The [TaskResult] built in the [except] branch of
    [run_multiple_episodes]. *)
Definition failed_result (episode : Z) (e : exn) : M TaskResult :=
  start_time0 ← time_time env;
  end_time0 ← time_time env;
  mret (mkTaskResult ("episode_" ++ pretty episode ++ "_failed")
          ("Episode " ++ pretty episode) false 0%Q start_time0 end_time0
          (Some (str e)) None).

(** One iteration of the loop of [run_multiple_episodes]; [results0] is
    the local list [results].  In the [try] block only [run_episode] can
    raise, so the [except] branch finds the list as the iteration found
    it. *)
Definition episode_body (num_episodes episode : Z)
    (results0 : list TaskResult) : M (list TaskResult) :=
  try_except
    (result ← run_episode;
     let results0 := (results0 ++ [result])%list in
     (if (episode <? num_episodes)%Z then time_sleep 2%Q else mret tt);;
     mret results0)
    (λ e, r ← failed_result episode e; mret (results0 ++ [r])%list).

Fixpoint episode_loop (num_episodes : Z) (todo : list Z)
    (results0 : list TaskResult) : M (list TaskResult) :=
  match todo with
  | [] => mret results0
  | episode :: rest =>
      results0 ← episode_body num_episodes episode results0;
      episode_loop num_episodes rest results0
  end.

Definition run_multiple_episodes (num_episodes : Z) : M (list TaskResult) :=
  episode_loop num_episodes (episodes num_episodes) [].

End WithEnv.

End AgentOrchestrator.

(** ** web_server.py and the part of observability.py it calls *)

Module WebServer.

(** [ObservabilityManager]: its attributes, and which of the optional
    attributes ([tracer], [logging_client], [monitoring_client]) exist.
    [google_cloud_available] is the module-level flag
    [GOOGLE_CLOUD_AVAILABLE]. *)
Record ObservabilityManager : Type := mkObservabilityManager {
  project_id : string;
  service_name : string;
  trace_id : option Z;
  span_id : option Z;
  google_cloud_available : bool;
  has_tracer : bool;
  has_logging_client : bool;
  has_monitoring_client : bool;
}.

(** The handler object: [self.observability_manager] and
    [self.server.start_time]. *)
Record Handler : Type := mkHandler {
  observability_manager : option ObservabilityManager;
  server_start_time : Q;
}.

(** The request: [self.path], the [Content-Length] header when there is
    one, and the bytes waiting on [self.rfile]. *)
Record Request : Type := mkRequest {
  req_path : string;
  req_content_length : option string;
  req_rfile : string;
}.

Inductive Payload : Type :=
  | PJson (data : pyval)
  | PText (data : string).

(** What [_send_json_response] and [_send_text_response] send. *)
Record Response : Type := mkResponse {
  status_code : Z;
  content_type : string;
  allow_origin : string;
  payload : Payload;
}.

Definition _send_json_response (data : pyval) (status_code0 : Z)
  : M Response :=
  mret (mkResponse status_code0 "application/json" "*" (PJson data)).

Definition _send_text_response (data : string) (status_code0 : Z)
    (content_type0 : string) : M Response :=
  mret (mkResponse status_code0 content_type0 "*" (PText data)).

(** [self.rfile.read(n)]; a negative [n] reads everything. *)
Definition rfile_read (n : Z) (rfile : string) : string :=
  if (n <? 0)%Z then rfile else String.substring 0 (Z.to_nat n) rfile.

Definition opt_int (v : option Z) : pyval :=
  match v with
  | Some n => VInt n
  | None => VNone
  end.

(** ["\n".join(lines)] *)
Fixpoint join_lines (lines : list string) : string :=
  match lines with
  | [] => ""
  | [l] => l
  | l :: rest => l ++ String "010"%char (join_lines rest)
  end.

Definition _check_readiness : bool := true.

Definition _collect_metrics : string :=
  join_lines
    [ "# HELP androidworld_tasks_total Total number of tasks processed";
      "# TYPE androidworld_tasks_total counter";
      "androidworld_tasks_total{service=" ++ String "034"%char
        ("androidworld-worker" ++ String "034"%char "} 0");
      "# HELP androidworld_task_duration_seconds Task execution duration";
      "# TYPE androidworld_task_duration_seconds histogram";
      "androidworld_task_duration_seconds{service=" ++ String "034"%char
        ("androidworld-worker" ++ String "034"%char "} 0") ].

Section WithEnv.

Context (env : Env).

(** [datetime.utcnow().isoformat()] *)
Definition utcnow_isoformat : M string := λ s,
  let iso := env_utcnow env (trace s) in
  (Ok iso, set_trace (trace s ++ [EvUtcnow iso]) s).

(** [ObservabilityManager.get_health_status] *)
Definition get_health_status (o : ObservabilityManager) : M pyval :=
  timestamp ← utcnow_isoformat;
  mret (VDict
          {[ "status" := VStr "healthy";
             "timestamp" := VStr timestamp;
             "service" := VStr (service_name o);
             "project_id" := VStr (project_id o);
             "observability" :=
               VDict
                 {[ "google_cloud_available" :=
                      VBool (google_cloud_available o);
                    "opentelemetry_available" := VBool (has_tracer o);
                    "logging_available" := VBool (has_logging_client o);
                    "monitoring_available" :=
                      VBool (has_monitoring_client o) ]} ]}).

(** [log_task_start], [log_task_completion] and [log_error] hand one entry
    to the logging backend; every failure of the backend is caught inside
    them. *)
Definition log_task_start (task_id0 task_type0 task_data : pyval) : M unit :=
  emit (EvLogTaskStart task_id0 task_type0 task_data).

Definition log_task_completion
    (task_id0 task_type0 result duration success0 : pyval) : M unit :=
  emit (EvLogTaskCompletion task_id0 task_type0 result duration success0).

Definition log_error (e : exn) (endpoint : string) : M unit :=
  emit (EvLogError e endpoint).

Definition _handle_health (h : Handler) : M Response :=
  status ←
    match observability_manager h with
    | Some o => get_health_status o
    | None =>
        timestamp ← time_time env;
        mret (VDict {[ "status" := VStr "healthy";
                       "timestamp" := VFloat timestamp;
                       "service" := VStr "androidworld-worker" ]})
    end;
  _send_json_response status 200.

Definition _handle_ready : M Response :=
  if _check_readiness
  then _send_json_response (VDict {[ "status" := VStr "ready" ]}) 200
  else _send_json_response (VDict {[ "status" := VStr "not_ready" ]}) 503.

Definition _handle_metrics : M Response :=
  _send_text_response _collect_metrics 200 "text/plain".

Definition _handle_status (h : Handler) : M Response :=
  now ← time_time env;
  let uptime := Qminus now (server_start_time h) in
  let environment := default "production" (env_getenv env "ENVIRONMENT") in
  let project :=
    default "unknown" (env_getenv env "GOOGLE_CLOUD_PROJECT") in
  timestamp ← time_time env;
  _send_json_response
    (VDict {[ "service" := VStr "androidworld-worker";
              "version" := VStr "1.0.0";
              "uptime" := VFloat uptime;
              "environment" := VStr environment;
              "project_id" := VStr project;
              "timestamp" := VFloat timestamp ]}) 200.

Definition _handle_trace (h : Handler) : M Response :=
  let trace_info :=
    match observability_manager h with
    | Some o =>
        VDict {[ "trace_id" := opt_int (trace_id o);
                 "span_id" := opt_int (span_id o);
                 "service" := VStr "androidworld-worker" ]}
    | None =>
        VDict {[ "trace_id" := VNone;
                 "span_id" := VNone;
                 "service" := VStr "androidworld-worker" ]}
    end in
  _send_json_response trace_info 200.

Definition _execute_task (task_data : pyval) : M pyval :=
  start_time0 ← time_time env;
  time_sleep (1 # 10)%Q;;
  now ← time_time env;
  let duration := Qminus now start_time0 in
  task_id0 ← lift (get task_data "task_id" VNone);
  task_type0 ← lift (get task_data "task_type" VNone);
  timestamp ← time_time env;
  mret (VDict {[ "task_id" := task_id0;
                 "task_type" := task_type0;
                 "success" := VBool true;
                 "duration" := VFloat duration;
                 "result" := VStr "Task completed successfully";
                 "timestamp" := VFloat timestamp ]}).

Definition _handle_task (h : Handler) (req : Request) : M Response :=
  content_length ←
    lift (match req_content_length req with
          | Some v => env_int env v
          | None => Ok 0%Z
          end);
  let post_data := rfile_read content_length (req_rfile req) in
  try_except
    (text ← lift (env_decode env post_data);
     task_data ← lift (env_json_loads env text);
     match observability_manager h with
     | Some _ =>
         task_id0 ← lift (get task_data "task_id" (VStr "unknown"));
         task_type0 ← lift (get task_data "task_type" (VStr "unknown"));
         log_task_start task_id0 task_type0 task_data
     | None => mret tt
     end;;
     result ← _execute_task task_data;
     match observability_manager h with
     | Some _ =>
         task_id0 ← lift (get task_data "task_id" (VStr "unknown"));
         task_type0 ← lift (get task_data "task_type" (VStr "unknown"));
         duration ← lift (get result "duration" (VInt 0));
         success0 ← lift (get result "success" (VBool false));
         log_task_completion task_id0 task_type0 result duration success0
     | None => mret tt
     end;;
     _send_json_response result 200)
    (λ e, match e with
          | JSONDecodeError _ =>
              _send_json_response (VDict {[ "error" := VStr "Invalid JSON" ]})
                400
          | _ => _send_json_response (VDict {[ "error" := VStr (str e) ]}) 500
          end).

Definition _handle_not_found : M Response :=
  _send_json_response (VDict {[ "error" := VStr "Not found" ]}) 404.

Definition _handle_error (h : Handler) (req : Request) (e : exn)
  : M Response :=
  match observability_manager h with
  | Some _ => log_error e (req_path req)
  | None => mret tt
  end;;
  _send_json_response (VDict {[ "error" := VStr (str e) ]}) 500.

Definition do_GET (h : Handler) (req : Request) : M Response :=
  let path := env_url_path env (req_path req) in
  try_except
    (if String.eqb path "/health" then _handle_health h
     else if String.eqb path "/ready" then _handle_ready
     else if String.eqb path "/metrics" then _handle_metrics
     else if String.eqb path "/status" then _handle_status h
     else if String.eqb path "/trace" then _handle_trace h
     else _handle_not_found)
    (_handle_error h req).

Definition do_POST (h : Handler) (req : Request) : M Response :=
  let path := env_url_path env (req_path req) in
  try_except
    (if String.eqb path "/task" then _handle_task h req
     else _handle_not_found)
    (_handle_error h req).

End WithEnv.

End WebServer.

(** ** Notions used in the statements *)

Module Spec.

(** A task name is flaky in a history when the results that carry the name
    contain a success and contain a failure. *)
Definition flaky (rs : list TaskResult) (name : string) : Prop :=
  Exists (λ r, task_name r = name ∧ success r = true) rs
  ∧ Exists (λ r, task_name r = name ∧ success r = false) rs.

#[global] Instance flaky_dec (rs : list TaskResult) (name : string)
  : Decision (flaky rs name) := and_dec _ _.

End Spec.

(** [emits P m]: running [m] only adds events to the trace, and every
    event it adds satisfies [P]. *)
Definition emits {A} (P : Event → Prop) (m : M A) : Prop :=
  ∀ s, ∃ d, trace (m s).2 = (trace s ++ d)%list ∧ Forall P d.

(** [keeps f m]: running [m] leaves the part [f] of the state as it was. *)
Definition keeps {A B} (f : State → B) (m : M A) : Prop :=
  ∀ s, f (m s).2 = f s.

(** A bridge call that ended in [subprocess.TimeoutExpired]. *)
Definition is_timeout (ev : Event) : bool :=
  match ev with
  | EvRun _ _ (Raise (TimeoutExpired _ _)) => true
  | _ => false
  end.

(** An interaction that the outside world answered with an exception. *)
Definition raised (ev : Event) : bool :=
  match ev with
  | EvRun _ _ (Raise _) => true
  | EvMakedirs _ (Some _) => true
  | EvWrite _ _ (Some _) => true
  | _ => false
  end.

(** The error message is present and contains ["timed out"]. *)
Definition reports_timeout (error : option string) : Prop :=
  ∃ m, error = Some m ∧ contains "timed out" m = true.

(** What the [try] block of [execute_task] leaves in [success],
    [error_message] and [metrics] for a handler's answer. *)
Definition outcome_of (hr : TaskExecutor.HandlerResult)
  : bool * option string * gmap string pyval :=
  if TaskExecutor.hr_success hr
  then (true, None, default ∅ (TaskExecutor.hr_metrics hr))
  else (false,
        Some (default "Unknown execution error" (TaskExecutor.hr_error hr)),
        ∅).

(** The [TaskResult] that [execute_task] builds once its [try] statement
    has ended with [body]. *)
Definition result_of (task : Task) (t0 t1 : Q)
    (body : result (bool * option string * gmap string pyval)) : TaskResult :=
  let '(success0, error_message0, metrics0) :=
    match body with
    | Ok locals => locals
    | Raise e => (false, Some (str e), ∅)
    end in
  mkTaskResult (default "unknown" (t_id task))
    (default "Unknown Task" (t_name task)) success0 (Qminus t1 t0) t0 t1
    error_message0 (Some metrics0).

(** The parameters of the task hold no package name, or a falsy one. *)
Definition lacks_package_name (task : Task) : Prop :=
  ∀ p v, t_parameters task = Some p → p !! "package_name" = Some v →
         truthy v = false.


(** The result that the [except] branch of [run_multiple_episodes] builds
    for episode [episode], with the two clock readings [t0] and [t1]. *)
Definition failure_of (episode : Z) (e : exn) (t0 t1 : Q) : TaskResult :=
  mkTaskResult ("episode_" ++ pretty episode ++ "_failed")
    ("Episode " ++ pretty episode) false 0%Q t0 t1 (Some (str e)) None.

(** The types of the templates of [_load_task_templates]. *)
Definition catalog_types : list string :=
  [ "navigation"; "information_gathering"; "installation"; "removal";
    "capture"; "maintenance" ].

(** The [parameters] a task generated from [template] may carry. *)
Definition parameters_from (template : Template)
    (parameters : gmap string pyval) : Prop :=
  if String.eqb (tpl_type template) "navigation"
     && bool_decide (is_Some (tpl_parameters template !! "package_name"))
  then ∃ package, package ∈ TaskGenerator.packages
         ∧ parameters
           = <["package_name" := VStr package]> (tpl_parameters template)
  else parameters = tpl_parameters template.

Definition in_range (lo hi : Z) (field : option Z) : Prop :=
  ∃ n, field = Some n ∧ (lo ≤ n ≤ hi)%Z.

(** [m] sends a JSON response with status [code] whose data satisfies
    [P]. *)
Definition responds (m : M WebServer.Response) (s : State) (code : Z)
    (P : pyval → Prop) : Prop :=
  ∃ resp s' data,
    m s = (Ok resp, s') ∧ WebServer.status_code resp = code
    ∧ WebServer.payload resp = WebServer.PJson data ∧ P data.

(** The bytes that [_handle_task] reads from the request. *)
Definition post_data (env : Env) (req : WebServer.Request) : result string :=
  match
    match WebServer.req_content_length req with
    | Some v => env_int env v
    | None => Ok 0%Z
    end
  with
  | Ok n => Ok (WebServer.rfile_read n (WebServer.req_rfile req))
  | Raise e => Raise e
  end.


(** ** Concrete worlds and inputs *)

Module Sample.

Definition dq : string := String "034"%char "".

Definition body_object : string :=
  "{" ++ dq ++ "task_id" ++ dq ++ ":" ++ dq ++ "t1" ++ dq ++ ","
  ++ dq ++ "task_type" ++ dq ++ ":" ++ dq ++ "demo" ++ dq ++ "}".

Definition body_array : string := "[1]".


Definition body_not_utf8 : string := String "255"%char "".

(** [int(s)] on a string of decimal digits. *)
Fixpoint digits (s : string) (acc : Z) : option Z :=
  match s with
  | EmptyString => Some acc
  | String c rest =>
      let n := nat_of_ascii c in
      if (48 <=? n)%nat && (n <=? 57)%nat
      then digits rest (10 * acc + Z.of_nat (n - 48))%Z
      else None
  end.

Definition int_of (v : string) : result Z :=
  match v with
  | EmptyString =>
      Raise (ValueError "invalid literal for int() with base 10: ''")
  | _ =>
      match digits v 0%Z with
      | Some n => Ok n
      | None =>
          Raise (ValueError
                   ("invalid literal for int() with base 10: '" ++ v ++ "'"))
      end
  end.

(** The path of a URL without [;parameters]: what precedes the query and
    the fragment. *)
Fixpoint url_path (p : string) : string :=
  match p with
  | EmptyString => EmptyString
  | String c rest =>
      if Ascii.eqb c "?"%char || Ascii.eqb c "#"%char then EmptyString
      else String c (url_path rest)
  end.

(** Byte 255 occurs in no UTF-8 text. *)
Definition decode (raw : string) : result string :=
  if contains body_not_utf8 raw
  then Raise (UnicodeDecodeError
                "'utf-8' codec can't decode byte 0xff: invalid start byte")
  else Ok raw.

(** [json.loads] on the three documents used below. *)
Definition json_loads (text : string) : result pyval :=
  if String.eqb text body_object
  then Ok (VDict {[ "task_id" := VStr "t1"; "task_type" := VStr "demo" ]})
  else if String.eqb text body_array then Ok (VList [VInt 1])
  else Raise (JSONDecodeError "Expecting value: line 1 column 1 (char 0)").

(** A world whose clock shows the number of events so far and whose bridge
    calls all answer [run]. *)
Definition env_with (run : string → Z → result Completed) : Env :=
  mkEnv (λ tr, inject_Z (Z.of_nat (length tr)))
    (λ tr, length tr)
    (λ tr, "uuid-" ++ pretty (length tr))
    (λ _, run)
    (λ _ _, None)
    (λ _ _ _, None)
    (λ _, "2024-01-01T00:00:00")
    (λ _, "")
    (λ _, None)
    url_path int_of decode json_loads.

Definition env_ok : Env :=
  env_with (λ _ _, Ok (mkCompleted 0 "package:com.example.testapp" "")).

Definition env_timeout : Env :=
  env_with (λ cmd timeout, Raise (TimeoutExpired cmd timeout)).

(** The orchestrator as its constructor leaves it. *)
Definition state0 : State :=
  mkState [] [] TaskGenerator._load_task_templates [] "./run.sh" "localhost"
    "5555" ".".

(** The same orchestrator once the generator's catalog has been emptied. *)
Definition state_no_templates : State :=
  mkState [] [] [] [] "./run.sh" "localhost" "5555" ".".

Definition task_of (id0 : option string) (type0 : string)
    (parameters : gmap string pyval) : Task :=
  mkTask id0 (Some "Sample task") (Some type0) None (Some parameters) None
    None None None.

Definition removal_task : Task :=
  task_of (Some "t1") "removal"
    {[ "package_name" := VStr "com.example.testapp" ]}.

Definition removal_task_no_package : Task :=
  task_of (Some "t2") "removal" ∅.

Definition maintenance_task_no_package : Task :=
  task_of (Some "t3") "maintenance" {[ "data_types" := VList [VStr "cache"] ]}.

Definition task_without_id : Task :=
  task_of None "capture" ∅.

Definition history : list TaskResult :=
  [ mkTaskResult "1" "X" true 1 0 1 None None;
    mkTaskResult "2" "X" false 1 1 2 (Some "Failed to open app: ") None;
    mkTaskResult "3" "X" true 1 2 3 None None;
    mkTaskResult "4" "Y" true 1 3 4 None None;
    mkTaskResult "5" "Y" true 1 4 5 None None ].

Definition handler : WebServer.Handler := WebServer.mkHandler None 0.

Definition post_task (body : string) : WebServer.Request :=
  WebServer.mkRequest "/task" (Some (pretty (String.length body))) body.


End Sample.

(** * More of the code *)

(** ** More of base_agent.py: the base runner and [reset] *)

Module BaseRunner.

(** The timing patch of [BaseAgent.run_episode]; a [datetime] is
    represented by its timestamp. *)
Definition set_times (start_time0 end_time0 : Q) (r : TaskResult)
  : TaskResult :=
  mkTaskResult (task_id r) (task_name r) (success r)
    (Qminus end_time0 start_time0) start_time0 end_time0 (error_message r)
    (metrics r).

Section Abstract.

(** The two abstract methods, as a subclass supplies them. *)
Context (env : Env) (generate_task : M Task)
  (execute_task : Task → M TaskResult).

(** [BaseAgent.run_episode] *)
Definition run_episode : M TaskResult :=
  task ← generate_task;
  start_time0 ← time_time env;
  result ← execute_task task;
  end_time0 ← time_time env;
  let result := set_times start_time0 end_time0 result in
  modify (λ s, set_results (results s ++ [result]) s);;
  mret result.

End Abstract.

(** [BaseAgent.reset] *)
Definition reset : M unit := modify (set_results []).

End BaseRunner.

(** The executor run on its own: [TaskExecutor.generate_task] is a
    placeholder, and [run_episode] is the one inherited from [BaseAgent];
    [results] of the state is then the executor's own list. *)
Module ExecutorAgent.

(** The dictionary that [TaskExecutor.generate_task] returns. *)
Definition placeholder : Task :=
  mkTask (Some "placeholder") (Some "Placeholder Task") (Some "placeholder")
    (Some "This agent only executes tasks") (Some ∅) (Some "N/A") None None
    None.

Definition generate_task : M Task := mret placeholder.

Definition run_episode (env : Env) : M TaskResult :=
  BaseRunner.run_episode env generate_task (TaskExecutor.execute_task env).

End ExecutorAgent.

(** ** More of orchestrator.py: statistics, status, reset *)

Module AgentStatistics.

(** The orchestrator with the [results] lists that its two sub-agents
    inherit from [BaseAgent]. *)
Record Agents : Type := mkAgents {
  agent_name : string;
  core : State;
  generator_results : list TaskResult;
  executor_results : list TaskResult;
}.

(** The dictionary of [get_comprehensive_statistics]. *)
Record ComprehensiveStats : Type := mkComprehensiveStats {
  cs_orchestrator : gmap string statval;
  cs_task_generator : gmap string statval;
  cs_task_executor : gmap string statval;
  cs_summary : gmap string statval;
}.

Definition get_comprehensive_statistics (a : Agents)
  : result ComprehensiveStats :=
  let orchestrator_stats := BaseAgent.get_statistics (results (core a)) in
  match TaskGenerator.get_task_statistics (task_history (core a)) with
  | Raise e => Raise e
  | Ok generator_stats =>
      let executor_stats := BaseAgent.get_statistics (executor_results a) in
      Ok (mkComprehensiveStats orchestrator_stats generator_stats
            executor_stats
            {[ "total_episodes" :=
                 default (SInt 0) (orchestrator_stats !! "total_tasks");
               "overall_success_rate" :=
                 default (SInt 0) (orchestrator_stats !! "success_rate");
               "average_execution_time" :=
                 default (SInt 0) (orchestrator_stats !! "avg_time");
               "flakiness_rate" :=
                 default (SInt 0) (orchestrator_stats !! "flakiness_rate") ]})
  end.

(** [reset_all_agents]: [BaseAgent.reset] on the orchestrator, on the
    generator and on the executor. *)
Definition reset_all_agents (a : Agents) : Agents :=
  mkAgents (agent_name a) (BaseRunner.reset (core a)).2 [] [].

(** One entry of the dictionary of [get_agent_status]. *)
Record AgentStatus : Type := mkAgentStatus {
  as_name : string;
  as_status : string;
  as_count : nat;
}.

(** [get_agent_status]: the entries ["orchestrator"] (with
    ["episodes_run"]), ["task_generator"] (with ["tasks_generated"]) and
    ["task_executor"] (with ["tasks_executed"]). *)
Definition get_agent_status (a : Agents)
  : AgentStatus * AgentStatus * AgentStatus :=
  (mkAgentStatus (agent_name a) "active" (length (results (core a))),
   mkAgentStatus "TaskGenerator" "active" (length (task_history (core a))),
   mkAgentStatus "TaskExecutor" "active" (length (executor_results a))).

End AgentStatistics.

(** ** More notions used in the statements *)

(** The task carries the keys that the generator always sets. *)
Definition well_formed (task : Task) : Prop :=
  is_Some (t_id task) ∧ is_Some (t_name task) ∧ is_Some (t_type task)
  ∧ is_Some (t_parameters task).

(** Number of tasks of a type in a history. *)
Definition count_type (task_type : string) (history : list Task) : nat :=
  length (filter (λ task, t_type task = Some task_type) history).

(** The sum of the counts of a ["task_types"] dictionary. *)
Definition counts_total (task_types : gmap string Z) : Z :=
  map_fold (λ _ n acc, (n + acc)%Z) 0%Z task_types.

(** The deadline that the handler of a task type gives its bridge call. *)
Definition deadline_of (task_type : string) : Z :=
  if String.eqb task_type "navigation" then 30
  else if String.eqb task_type "information_gathering" then 20
  else if String.eqb task_type "installation" then 15
  else if String.eqb task_type "removal" then 15
  else if String.eqb task_type "capture" then 20
  else if String.eqb task_type "maintenance" then 30
  else 60.

(** What a handler puts before [str e] when its bridge call raises an
    exception that is not a timeout. *)
Definition error_prefix (task_type : string) : string :=
  if String.eqb task_type "navigation" then "Navigation task failed: "
  else if String.eqb task_type "information_gathering"
  then "Info gathering failed: "
  else if String.eqb task_type "installation" then "Installation failed: "
  else if String.eqb task_type "removal" then "Removal failed: "
  else if String.eqb task_type "capture" then "Screenshot failed: "
  else if String.eqb task_type "maintenance" then "Maintenance failed: "
  else "Generic task failed: ".

(** Every bridge call of the trace has the deadline [deadline]. *)
Definition bridge_deadline (deadline : Z) (ev : Event) : Prop :=
  match ev with
  | EvRun _ timeout _ => timeout = deadline
  | _ => True
  end.

(** A clock that never goes back while the trace grows. *)
Definition monotone_clock (env : Env) : Prop :=
  ∀ tr d, Qle (env_time env tr) (env_time env (tr ++ d)).

(** An entry written to the observability sink. *)
Definition is_log (ev : Event) : bool :=
  match ev with
  | EvLogTaskStart _ _ _ | EvLogTaskCompletion _ _ _ _ _ | EvLogError _ _ =>
      true
  | _ => false
  end.

Definition is_dict (v : pyval) : bool :=
  match v with VDict _ => true | _ => false end.

(** The attributes that the constructors set and no episode writes. *)
Definition settings (s : State)
  : list Template * string * string * string * string :=
  (task_templates s, androidworld_runner s, emulator_ip s, emulator_port s,
   working_directory s).


(** Two results that differ at most in their start and end time. *)
Definition same_but_times (r1 r2 : TaskResult) : Prop :=
  task_id r1 = task_id r2 ∧ task_name r1 = task_name r2
  ∧ success r1 = success r2 ∧ execution_time r1 = execution_time r2
  ∧ error_message r1 = error_message r2 ∧ metrics r1 = metrics r2.

(** The summary of [get_comprehensive_statistics] over no results. *)
Definition empty_summary : gmap string statval :=
  {[ "total_episodes" := SInt 0;
     "overall_success_rate" := SInt 0;
     "average_execution_time" := SInt 0;
     "flakiness_rate" := SInt 0 ]}.



(** ** More worlds and inputs *)

Module MoreSample.

(** A world whose bridge calls all end with the exit code [code]. *)
Definition env_exit (code : Z) : Env :=
  Sample.env_with (λ _ _, Ok (mkCompleted code "" "device offline")).

(** A world whose bridge calls all fail to start. *)
Definition env_oserror : Env :=
  Sample.env_with
    (λ _ _, Raise (OSError 2 "No such file or directory" "/bin/sh")).

Definition capture_task : Task :=
  Sample.task_of (Some "t4") "capture" ∅.

Definition installation_task : Task :=
  Sample.task_of (Some "t5") "installation"
    {[ "apk_path" := VStr "/sdcard/test_app.apk";
       "package_name" := VStr "com.example.testapp" ]}.

Definition removal_task_int_package : Task :=
  Sample.task_of (Some "t6") "removal" {[ "package_name" := VInt 7 ]}.

Definition manager : WebServer.ObservabilityManager :=
  WebServer.mkObservabilityManager "demo-project" "androidworld-worker" None
    None false false false false.

(** A handler with an observability manager. *)
Definition handler_observed : WebServer.Handler :=
  WebServer.mkHandler (Some manager) 0.

(** A request for [/task] whose [Content-Length] is not a number. *)
Definition post_task_bad_length : WebServer.Request :=
  WebServer.mkRequest "/task" (Some "abc") Sample.body_object.

Definition tasks : list Task :=
  [ Sample.removal_task; capture_task; installation_task;
    Sample.removal_task ].

End MoreSample.

(** Number of pauses ([time.sleep]) in a trace. *)
Definition pauses (tr : list Event) : nat :=
  length (List.filter is_sleep tr).

Definition is_time (ev : Event) : bool :=
  match ev with EvTime _ => true | _ => false end.

(** The exception of [random.choice] on an empty catalog. *)
Definition empty_catalog : exn :=
  IndexError "Cannot choose from an empty sequence".

(** The result [r] is the result of executing [task]. *)
Definition result_for (task : Task) (r : TaskResult) : Prop :=
  t_id task = Some (task_id r) ∧ t_name task = Some (task_name r).

(** * Theorems *)

(** ** Reasoning in the monad *)

Ltac unfold_monad :=
  unfold mbind, M_bind, mret, M_ret, try_except, lift, gets, modify, emit,
    raise, time_time, time_sleep, subprocess_run, os_makedirs, write_json,
    uuid_uuid4, random_randint in *.

Lemma events_since_app (s s' : State) (d : list Event) :
  trace s' = (trace s ++ d)%list → events_since s s' = d.
Proof.
  intros H. unfold events_since. rewrite H. by rewrite drop_app_length.
Qed.

Lemma existsb_false_Forall {A} (p : A → bool) (l : list A) :
  Forall (λ x, p x = false) l → existsb p l = false.
Proof. induction 1 as [|x l Hx _ IH]; [done |]. simpl. by rewrite Hx, IH. Qed.

Lemma bridge_calls_app (tr d : list Event) :
  bridge_calls (tr ++ d) = (bridge_calls tr + bridge_calls d)%nat.
Proof. unfold bridge_calls. by rewrite List.filter_app, length_app. Qed.

Lemma bridge_calls_none (d : list Event) :
  Forall (λ ev, is_run ev = false) d → bridge_calls d = 0%nat.
Proof.
  unfold bridge_calls. induction 1 as [|ev d Hev _ IH]; [done |].
  simpl. by rewrite Hev.
Qed.

Lemma not_timeout_of_not_run (ev : Event) :
  is_run ev = false → is_timeout ev = false.
Proof. by destruct ev. Qed.

Section Emits.

Context (P : Event → Prop).

Lemma emits_nothing {A} (m : M A) :
  (∀ s, (m s).2 = s) → emits P m.
Proof.
  intros H s. exists []. rewrite H, app_nil_r. by split.
Qed.

Lemma emits_one {A} (m : M A) :
  (∀ s, ∃ ev, trace (m s).2 = (trace s ++ [ev])%list ∧ P ev) → emits P m.
Proof.
  intros H s. destruct (H s) as (ev & Htr & Hev). exists [ev].
  split; [done | by constructor].
Qed.

Lemma emits_ret {A} (a : A) : emits P (mret a).
Proof. by apply emits_nothing. Qed.

Lemma emits_lift {A} (r : result A) : emits P (lift r).
Proof. by apply emits_nothing. Qed.

Lemma emits_gets {A} (f : State → A) : emits P (gets f).
Proof. by apply emits_nothing. Qed.

Lemma emits_raise {A} (e : exn) : emits P (raise (A:=A) e).
Proof. by apply emits_nothing. Qed.

Lemma emits_bind {A B} (m : M A) (f : A → M B) :
  emits P m → (∀ a, emits P (f a)) → emits P (m ≫= f).
Proof.
  intros Hm Hf s. unfold mbind, M_bind.
  destruct (Hm s) as (d1 & H1 & HP1).
  destruct (m s) as [[a|e] s1]; simpl in *.
  - destruct (Hf a s1) as (d2 & H2 & HP2). exists (d1 ++ d2)%list.
    rewrite H2, H1, app_assoc. split; [done | by apply Forall_app].
  - by exists d1.
Qed.

Lemma emits_try {A} (m : M A) (h : exn → M A) :
  emits P m → (∀ e, emits P (h e)) → emits P (try_except m h).
Proof.
  intros Hm Hh s. unfold try_except.
  destruct (Hm s) as (d1 & H1 & HP1).
  destruct (m s) as [[a|e] s1]; simpl in *.
  - by exists d1.
  - destruct (Hh e s1) as (d2 & H2 & HP2). exists (d1 ++ d2)%list.
    rewrite H2, H1, app_assoc. split; [done | by apply Forall_app].
Qed.

Lemma emits_emit (ev : Event) : P ev → emits P (emit ev).
Proof. intros Hev. apply emits_one. intros s. by exists ev. Qed.

Lemma emits_time env : (∀ t, P (EvTime t)) → emits P (time_time env).
Proof. intros HP. apply emits_one. intros s. by eexists. Qed.

Lemma emits_run env cmd t :
  (∀ out, P (EvRun cmd t out)) → emits P (subprocess_run env cmd t).
Proof. intros HP. apply emits_one. intros s. by eexists. Qed.

Lemma emits_makedirs env p :
  (∀ err, P (EvMakedirs p err)) → emits P (os_makedirs env p).
Proof. intros HP. apply emits_one. intros s. by eexists. Qed.

Lemma emits_write env p doc :
  (∀ err, P (EvWrite p doc err)) → emits P (write_json env p doc).
Proof. intros HP. apply emits_one. intros s. by eexists. Qed.

End Emits.

Section Keeps.

Context {B : Type} (f : State → B).
Context (Hf : ∀ tr s, f (set_trace tr s) = f s).

Lemma keeps_ret {A} (a : A) : keeps f (mret a).
Proof. done. Qed.

Lemma keeps_lift {A} (r : result A) : keeps f (lift r).
Proof. done. Qed.

Lemma keeps_gets {A} (g : State → A) : keeps f (gets g).
Proof. done. Qed.

Lemma keeps_raise {A} (e : exn) : keeps f (raise (A:=A) e).
Proof. done. Qed.

Lemma keeps_bind {A C} (m : M A) (k : A → M C) :
  keeps f m → (∀ a, keeps f (k a)) → keeps f (m ≫= k).
Proof.
  intros Hm Hk s. unfold mbind, M_bind. specialize (Hm s).
  destruct (m s) as [[a|e] s1]; simpl in *; [| done].
  by rewrite Hk.
Qed.

Lemma keeps_try {A} (m : M A) (h : exn → M A) :
  keeps f m → (∀ e, keeps f (h e)) → keeps f (try_except m h).
Proof.
  intros Hm Hh s. unfold try_except. specialize (Hm s).
  destruct (m s) as [[a|e] s1]; simpl in *; [done |].
  by rewrite Hh.
Qed.

Lemma keeps_modify (g : State → State) :
  (∀ s, f (g s) = f s) → keeps f (modify g).
Proof. intros Hg s. apply Hg. Qed.

Lemma keeps_emit (ev : Event) : keeps f (emit ev).
Proof. intros s. apply Hf. Qed.

Lemma keeps_time env : keeps f (time_time env).
Proof. intros s. apply Hf. Qed.

Lemma keeps_uuid env : keeps f (uuid_uuid4 env).
Proof. intros s. apply Hf. Qed.

Lemma keeps_randint env a b : keeps f (random_randint env a b).
Proof. intros s. apply Hf. Qed.

Lemma keeps_choice {A} env (l : list A) : keeps f (random_choice env l).
Proof. destruct l; [done |]. intros s. apply Hf. Qed.

Lemma keeps_run env cmd t : keeps f (subprocess_run env cmd t).
Proof. intros s. apply Hf. Qed.

Lemma keeps_makedirs env p : keeps f (os_makedirs env p).
Proof. intros s. apply Hf. Qed.

Lemma keeps_write env p doc : keeps f (write_json env p doc).
Proof. intros s. apply Hf. Qed.

End Keeps.

Create HintDb keeps.
#[export] Hint Resolve keeps_ret keeps_lift keeps_gets keeps_raise
  keeps_emit keeps_time keeps_uuid keeps_randint keeps_choice keeps_run
  keeps_makedirs keeps_write : keeps.

Ltac keeps_tac :=
  repeat first
    [ progress intros
    | apply keeps_bind
    | apply keeps_try
    | solve [auto with keeps]
    | solve [apply keeps_modify; done]
    | case_match ].

Create HintDb emits.
#[export] Hint Resolve emits_ret emits_lift emits_gets emits_raise
  emits_emit emits_time emits_run emits_makedirs emits_write : emits.

Ltac emits_tac :=
  repeat first
    [ progress intros
    | apply emits_bind
    | apply emits_try
    | solve [auto with emits]
    | case_match ].

(** ** Statistics over a result history *)

Section Statistics.

Import BaseAgent.

Lemma count_success_pos (l : list TaskResult) :
  (0 < count_success l)%nat ↔ ∃ r, r ∈ l ∧ success r = true.
Proof.
  unfold count_success. induction l as [|a l IH]; simpl.
  - split; [lia | intros (r & Hr & _); inversion Hr].
  - rewrite filter_cons.
    destruct (decide (success a = true)) as [Ha|Ha]; simpl.
    + split; [intros _; exists a; split; [left | done] | lia].
    + rewrite IH. split.
      * intros (r & Hr & Hs). exists r. split; [by right | done].
      * intros (r & Hr & Hs).
        apply elem_of_cons in Hr as [->|Hr]; [done | eauto].
Qed.

Lemma count_success_lt (l : list TaskResult) :
  (count_success l < length l)%nat ↔ ∃ r, r ∈ l ∧ success r = false.
Proof.
  unfold count_success. induction l as [|a l IH]; simpl.
  - split; [lia | intros (r & Hr & _); inversion Hr].
  - pose proof (length_filter (λ r, success r = true) l) as Hle.
    rewrite filter_cons.
    destruct (decide (success a = true)) as [Ha|Ha]; simpl.
    + rewrite <- Nat.succ_lt_mono, IH. split.
      * intros (r & Hr & Hs). exists r. split; [by right | done].
      * intros (r & Hr & Hs).
        apply elem_of_cons in Hr as [->|Hr]; [congruence | eauto].
    + split; [intros _ | lia]. exists a. split; [left |].
      by destruct (success a).
Qed.

Lemma count_success_all (rs : list TaskResult) :
  Forall (λ r, success r = true) rs → count_success rs = length rs.
Proof.
  unfold count_success. induction 1 as [|r l Hr _ IH]; [done |].
  rewrite filter_cons, decide_True by done. simpl. by rewrite IH.
Qed.

Lemma elem_of_results_named name rs r :
  r ∈ results_named name rs ↔ r ∈ rs ∧ task_name r = name.
Proof. unfold results_named. rewrite list_elem_of_filter. tauto. Qed.

(** The loop body counts a name exactly when the name is flaky. *)
Lemma flaky_step_spec rs name n :
  flaky_step rs name n = if decide (Spec.flaky rs name) then S n else n.
Proof.
  unfold flaky_step.
  set (l := results_named name rs).
  assert (Hpos := count_success_pos l). assert (Hlt := count_success_lt l).
  assert (Hfl : Spec.flaky rs name
                ↔ (0 < count_success l ∧ count_success l < length l)%nat).
  { rewrite Hpos, Hlt. unfold Spec.flaky, l.
    rewrite !Exists_exists. split.
    - intros [(r1 & ? & ? & ?) (r2 & ? & ? & ?)].
      split; [exists r1 | exists r2]; by rewrite elem_of_results_named.
    - intros [(r1 & [? ?]%elem_of_results_named & ?)
              (r2 & [? ?]%elem_of_results_named & ?)].
      split; [exists r1 | exists r2]; done. }
  destruct (decide (Spec.flaky rs name)) as [Hf|Hf].
  - apply Hfl in Hf as [H1 H2].
    assert (Nat.ltb 1 (length l) = true) as -> by (apply Nat.ltb_lt; lia).
    apply Nat.ltb_lt in H1, H2. simpl. by rewrite H1, H2.
  - destruct (1 <? length l)%nat; [|done]. simpl.
    destruct (0 <? count_success l)%nat eqn:H1; [|done].
    destruct (count_success l <? length l)%nat eqn:H2; [|done].
    apply Nat.ltb_lt in H1, H2. tauto.
Qed.

(** The loop over the set of names counts the flaky names. *)
Lemma flaky_fold rs (names : gset string) :
  set_fold (flaky_step rs) 0%nat names = size (filter (Spec.flaky rs) names).
Proof.
  apply (set_fold_ind_L (λ n X, n = size (filter (Spec.flaky rs) X))).
  - rewrite filter_empty_L by apply _. by rewrite size_empty.
  - intros x X n Hx ->. rewrite flaky_step_spec, filter_union_L by apply _.
    assert (Hd : filter (Spec.flaky rs) ({[x]} : gset string)
                 ## filter (Spec.flaky rs) X).
    { intros y [_ Hy1]%elem_of_filter [_ Hy2]%elem_of_filter. set_solver. }
    rewrite (size_union _ _ Hd).
    rewrite filter_singleton_L by apply _.
    destruct (decide (Spec.flaky rs x)) as [Hf|Hf].
    + by rewrite size_singleton.
    + by rewrite size_empty.
Qed.

Lemma no_flaky_all_success (rs : list TaskResult) (names : gset string) :
  Forall (λ r, success r = true) rs → filter (Spec.flaky rs) names = ∅.
Proof.
  intros Hall. apply set_eq. intros name. rewrite elem_of_filter.
  split; [|set_solver]. intros [[_ (r & Hr & _ & Hs)%Exists_exists] _].
  rewrite Forall_forall in Hall. specialize (Hall r Hr). congruence.
Qed.

Lemma names_nonempty (r : TaskResult) (l : list TaskResult) :
  (list_to_set (task_name <$> r :: l) : gset string) ≠ ∅.
Proof. rewrite fmap_cons, list_to_set_cons. set_solver. Qed.

Lemma lookup_flaky_tasks (r : TaskResult) (l : list TaskResult) :
  get_statistics (r :: l) !! "flaky_tasks"
  = Some (SInt (Z.of_nat (set_fold (flaky_step (r :: l)) 0%nat
        (list_to_set (task_name <$> r :: l) : gset string)))).
Proof. unfold get_statistics. by simplify_map_eq. Qed.

Lemma lookup_flakiness_rate (r : TaskResult) (l : list TaskResult) :
  let names : gset string := list_to_set (task_name <$> r :: l) in
  get_statistics (r :: l) !! "flakiness_rate"
  = Some (SFloat (Qdiv
      (inject_Z (Z.of_nat (set_fold (flaky_step (r :: l)) 0%nat names)))
      (inject_Z (Z.of_nat (size names))))).
Proof.
  intros names. unfold get_statistics. fold names.
  destruct (decide (names = ∅)) as [He|_].
  - by apply names_nonempty in He.
  - by simplify_map_eq.
Qed.

Lemma lookup_success_rate (r : TaskResult) (l : list TaskResult) :
  get_statistics (r :: l) !! "success_rate"
  = Some (SFloat (Qdiv (inject_Z (Z.of_nat (count_success (r :: l))))
                       (inject_Z (Z.of_nat (length (r :: l)))))).
Proof. unfold get_statistics. by simplify_map_eq. Qed.

(** C2.  Over a non-empty history, the names that the loop of
    [get_statistics] counts are exactly the names whose results contain a
    success and a failure; ["flaky_tasks"] is the number of these names and
    ["flakiness_rate"] is that number divided by the number of distinct
    names. *)
Theorem get_statistics_flakiness (rs : list TaskResult) :
  rs ≠ [] →
  let names : gset string := list_to_set (task_name <$> rs) in
  let flaky_names : gset string := filter (Spec.flaky rs) names in
  (∀ name, name ∈ flaky_names ↔
     ∃ r1 r2, r1 ∈ rs ∧ r2 ∈ rs ∧ task_name r1 = name ∧ task_name r2 = name
              ∧ success r1 = true ∧ success r2 = false)
  ∧ (∀ name n, flaky_step rs name n
               = if decide (name ∈ flaky_names) then S n else n)
  ∧ get_statistics rs !! "flaky_tasks"
    = Some (SInt (Z.of_nat (size flaky_names)))
  ∧ get_statistics rs !! "flakiness_rate"
    = Some (SFloat (Qdiv (inject_Z (Z.of_nat (size flaky_names)))
                         (inject_Z (Z.of_nat (size names))))).
Proof.
  intros Hne names flaky_names.
  assert (Hin : ∀ name, name ∈ flaky_names ↔ Spec.flaky rs name).
  { intros name. unfold flaky_names, names.
    rewrite elem_of_filter, elem_of_list_to_set, list_elem_of_fmap.
    split; [tauto | intros Hf; split; [done |]].
    destruct Hf as [(r & Hr & Hn & _)%Exists_exists _]. eauto. }
  split; [|split; [|split]].
  - intros name. rewrite Hin. unfold Spec.flaky. rewrite !Exists_exists.
    split.
    + intros [(r1 & ? & ? & ?) (r2 & ? & ? & ?)]. exists r1, r2. tauto.
    + intros (r1 & r2 & ? & ? & ? & ? & ? & ?).
      split; [exists r1 | exists r2]; tauto.
  - intros name n. rewrite flaky_step_spec.
    destruct (decide (Spec.flaky rs name)) as [Hf|Hf];
      destruct (decide (name ∈ flaky_names)) as [Hi|Hi]; try done;
      rewrite Hin in Hi; tauto.
  - destruct rs as [|r l]; [done |].
    by rewrite lookup_flaky_tasks, flaky_fold.
  - destruct rs as [|r l]; [done |].
    by rewrite lookup_flakiness_rate, flaky_fold.
Qed.

(** The history of the specification's example: three results named X
    with successes [true, false, true] and two successful results named
    Y give one flaky name and a flakiness rate of one half. *)
Lemma get_statistics_flakiness_example :
  Sample.history ≠ []
  ∧ get_statistics Sample.history !! "flaky_tasks" = Some (SInt 1)
  ∧ get_statistics Sample.history !! "flakiness_rate"
    = Some (SFloat (1 # 2)).
Proof.
  assert (Hne : Sample.history ≠ []) by discriminate.
  split; [exact Hne |].
  destruct (get_statistics_flakiness Sample.history Hne) as (_ & _ & H1 & H2).
  split; [rewrite H1 | rewrite H2]; vm_compute; reflexivity.
Defined.

(** C7.  On an empty history [get_statistics] and [get_task_statistics]
    return the empty mapping; on a non-empty history whose results all
    succeeded, ["success_rate"] is 1 and ["flakiness_rate"] is 0. *)
Theorem statistics_empty_and_all_success :
  get_statistics [] = ∅
  ∧ TaskGenerator.get_task_statistics [] = Ok ∅
  ∧ ∀ rs : list TaskResult,
      rs ≠ [] → Forall (λ r, success r = true) rs →
      ∃ q1 q2 : Q,
        get_statistics rs !! "success_rate" = Some (SFloat q1) ∧ (q1 == 1)%Q
        ∧ get_statistics rs !! "flakiness_rate" = Some (SFloat q2)
        ∧ (q2 == 0)%Q.
Proof.
  split; [done | split; [done |]].
  intros rs Hne Hall. destruct rs as [|r l]; [done |].
  eexists _, _. split; [apply lookup_success_rate | split].
  - rewrite count_success_all by done.
    apply Qmult_inv_r. unfold Qeq. simpl. lia.
  - split; [apply lookup_flakiness_rate |].
    rewrite flaky_fold, no_flaky_all_success by done.
    rewrite size_empty. unfold Qdiv. apply Qmult_0_l.
Qed.

Lemma statistics_empty_and_all_success_example :
  ∃ q1 q2 : Q,
    get_statistics [mkTaskResult "1" "X" true 1 0 1 None None]
      !! "success_rate" = Some (SFloat q1)
    ∧ (q1 == 1)%Q
    ∧ get_statistics [mkTaskResult "1" "X" true 1 0 1 None None]
        !! "flakiness_rate" = Some (SFloat q2)
    ∧ (q2 == 0)%Q.
Proof.
  apply (proj2 (proj2 statistics_empty_and_all_success)).
  - discriminate.
  - repeat constructor.
Defined.

End Statistics.

(** ** The task generator *)

Section Generator.

Import TaskGenerator.

Lemma choice_elem_of {A} (raw : nat) (x0 : A) (l : list A) :
  l ≠ [] → nth (raw mod length l) l x0 ∈ l.
Proof.
  intros Hl. apply list_elem_of_In, nth_In, Nat.mod_upper_bound.
  by destruct l.
Qed.

Lemma randint_range (a b : Z) (raw : nat) :
  (a ≤ b)%Z →
  (a ≤ a + Z.of_nat (raw mod Z.to_nat (b - a + 1)) ≤ b)%Z.
Proof.
  intros Hab.
  pose proof (Nat.mod_upper_bound raw (Z.to_nat (b - a + 1))) as Hlt.
  lia.
Qed.

Lemma catalog_types_cover (template : Template) :
  template ∈ _load_task_templates → tpl_type template ∈ catalog_types.
Proof.
  revert template. apply Forall_forall.
  unfold _load_task_templates, catalog_types.
  repeat constructor; cbn [tpl_type]; set_solver.
Qed.

(** [generate_task] on any non-empty catalog. *)
Lemma generate_task_from_catalog (env : Env) (s : State) :
  task_templates s ≠ [] →
  ∃ task s' template u parameters,
    generate_task env s = (Ok task, s')
    ∧ template ∈ task_templates s
    ∧ t_name task = Some (tpl_name template)
    ∧ t_type task = Some (tpl_type template)
    ∧ t_id task = Some u ∧ EvUuid u ∈ events_since s s'
    ∧ t_parameters task = Some parameters
    ∧ parameters_from template parameters
    ∧ in_range 1 5 (t_priority task)
    ∧ in_range 30 120 (t_timeout task)
    ∧ in_range 0 2 (t_retry_count task)
    ∧ task_history s' = (task_history s ++ [task])%list
    ∧ task_templates s' = task_templates s.
Proof.
  intros Hne. unfold generate_task, random_choice.
  destruct (task_templates s) as [|x0 l] eqn:Htpl; [done |].
  unfold mbind, M_bind, mret, M_ret, gets, modify, uuid_uuid4, random_randint.
  cbn [fst snd trace set_trace]. rewrite Htpl.
  set (raw := env_random env (trace s)).
  set (template := nth (raw mod length (x0 :: l)) (x0 :: l) x0).
  assert (Hin : template ∈ x0 :: l) by (by apply choice_elem_of).
  unfold in_range.
  destruct (String.eqb (tpl_type template) "navigation") eqn:Hnav;
    [destruct (decide (is_Some (tpl_parameters template !! "package_name")))
       as [Hpk|Hpk] |].
  all: cbn -[Z.add Z.sub Z.of_nat Z.to_nat Nat.modulo nth].
  all: eexists _, _, template, _, _.
  all: split; [reflexivity |]; split; [exact Hin |].
  all: cbn -[Z.add Z.sub Z.of_nat Z.to_nat Nat.modulo nth].
  all: repeat lazymatch goal with
       | |- _ ∧ _ => split
       end; try reflexivity.
  all: try (eexists; split; [reflexivity | apply randint_range; lia]).
  all: try (erewrite events_since_app;
            [| cbn [trace set_trace]; rewrite <- !app_assoc; reflexivity];
            apply list_elem_of_In; cbn; tauto).
  all: try (cbn [task_templates set_task_history set_trace]; exact Htpl).
  all: unfold parameters_from; rewrite Hnav; cbn [andb].
  - rewrite (bool_decide_eq_true_2 _ Hpk).
    eexists. split; [| reflexivity].
    apply list_elem_of_In, nth_In. apply (Nat.mod_upper_bound _ 5). lia.
  - by rewrite (bool_decide_eq_false_2 _ Hpk).
  - done.
Qed.

(** C6.  With the catalog of eight templates, [generate_task] returns a
    task: its name and type are those of one template of the catalog (so
    the type is one of the catalog's types), its id is the UUID drawn
    during the call, its priority lies in 1..5, its timeout in 30..120,
    its retry count in 0..2, and it is appended to the history.  Its
    parameters are the template's, except that for a navigation template
    with a ["package_name"] that entry is replaced by one of the five
    [packages]. *)
Theorem generate_task_catalog (env : Env) (s : State) :
  task_templates s = _load_task_templates →
  ∃ task s' template u parameters,
    generate_task env s = (Ok task, s')
    ∧ length _load_task_templates = 8%nat
    ∧ length packages = 5%nat
    ∧ template ∈ _load_task_templates
    ∧ t_name task = Some (tpl_name template)
    ∧ t_type task = Some (tpl_type template)
    ∧ tpl_type template ∈ catalog_types
    ∧ t_id task = Some u ∧ EvUuid u ∈ events_since s s'
    ∧ t_parameters task = Some parameters
    ∧ parameters_from template parameters
    ∧ in_range 1 5 (t_priority task)
    ∧ in_range 30 120 (t_timeout task)
    ∧ in_range 0 2 (t_retry_count task)
    ∧ task_history s' = (task_history s ++ [task])%list.
Proof.
  intros Htpl.
  destruct (generate_task_from_catalog env s)
    as (task & s' & template & u & parameters & Hrun & Hin & Hname & Hty
        & Hid & Hev & Hpar & Hfrom & Hpri & Hto & Hre & Hhist & _).
  { by rewrite Htpl. }
  rewrite Htpl in Hin.
  exists task, s', template, u, parameters.
  repeat split; try done. by apply catalog_types_cover.
Qed.

Lemma generate_task_catalog_example :
  ∃ task s' ty,
    generate_task Sample.env_ok Sample.state0 = (Ok task, s')
    ∧ t_type task = Some ty ∧ ty ∈ catalog_types
    ∧ in_range 1 5 (t_priority task)
    ∧ in_range 30 120 (t_timeout task)
    ∧ in_range 0 2 (t_retry_count task)
    ∧ task_history s' = [task].
Proof.
  destruct (generate_task_catalog Sample.env_ok Sample.state0 eq_refl)
    as (task & s' & template & u & parameters & Hrun & _ & _ & _ & _ & Hty
        & Hcat & _ & _ & _ & _ & Hpri & Hto & Hre & Hhist).
  exists task, s', (tpl_type template). repeat split; done.
Defined.

End Generator.

(** ** The task executor *)

Section Executor.

Import TaskExecutor.

Ltac unfold_handlers :=
  unfold _run_androidworld_task, _execute_navigation_task,
    _execute_info_gathering_task, _execute_installation_task,
    _execute_removal_task, _execute_capture_task, _execute_maintenance_task,
    _execute_generic_task, parameters_of, TaskGenerator.getitem, in_string,
    failed, succeeded in *.

Ltac trace_eq :=
  cbn [trace set_trace];
  first [ reflexivity | symmetry; apply app_nil_r ].

Lemma dispatch_appends env task : emits (λ _, True) (dispatch env task).
Proof.
  unfold dispatch, _prepare_task_file, _run_androidworld_task,
    _execute_navigation_task, _execute_info_gathering_task,
    _execute_installation_task, _execute_removal_task, _execute_capture_task,
    _execute_maintenance_task, _execute_generic_task, parameters_of.
  emits_tac.
Qed.

Lemma prepare_no_bridge_call env task :
  emits (λ ev, is_run ev = false) (_prepare_task_file env task).
Proof. unfold _prepare_task_file. emits_tac. Qed.

Lemma prepare_error_nonempty env task s e :
  (_prepare_task_file env task s).1 = Raise e → str e ≠ "".
Proof.
  unfold _prepare_task_file, TaskGenerator.getitem.
  unfold_monad. repeat case_match; simplify_eq; cbn [fst]; intros [= <-];
    discriminate.
Qed.

(** [execute_task] as a function of what its [try] statement does. *)
Lemma execute_task_eq env task s :
  let t0 := env_time env (trace s) in
  let s1 := set_trace (trace s ++ [EvTime t0]) s in
  let body := dispatch env task s1 in
  let t1 := env_time env (trace body.2) in
  execute_task env task s
  = (Ok (result_of task t0 t1 body.1),
     set_trace (trace body.2 ++ [EvTime t1]) body.2).
Proof.
  intros t0 s1 body t1.
  unfold execute_task, mbind, M_bind, try_except, time_time.
  fold t0. fold s1. fold body. subst t1.
  by destruct body as [[[[su em] me]|e] s2].
Qed.

Lemma dispatch_eq env task s :
  dispatch env task s
  = match _prepare_task_file env task s with
    | (Ok f, s2) =>
        match _run_androidworld_task env f task s2 with
        | (Ok hr, s3) => (Ok (outcome_of hr), s3)
        | (Raise e, s3) => (Raise e, s3)
        end
    | (Raise e, s2) => (Raise e, s2)
    end.
Proof.
  unfold dispatch, mbind, M_bind, outcome_of.
  destruct (_prepare_task_file env task s) as [[f|e] s2]; [|done].
  destruct (_run_androidworld_task env f task s2) as [[hr|e] s3]; [|done].
  by destruct (hr_success hr).
Qed.

(** When the task file has been written, no call of the preparation was
    answered with an exception. *)
Lemma prepare_ok_quiet env task s f s2 :
  _prepare_task_file env task s = (Ok f, s2) →
  ∃ d, trace s2 = (trace s ++ d)%list ∧ existsb raised d = false.
Proof.
  unfold _prepare_task_file, TaskGenerator.getitem. unfold_monad.
  repeat case_match; simplify_eq; intros [= <- <-].
  eexists. split; [cbn [trace set_trace]; by rewrite <- !app_assoc |].
  cbn. repeat case_match; simplify_eq; done.
Qed.

(** Every handler returns, and answers with a failure when its bridge
    call was answered with an exception. *)
Lemma handler_raised env f task s :
  ∃ hr s' d,
    _run_androidworld_task env f task s = (Ok hr, s')
    ∧ trace s' = (trace s ++ d)%list
    ∧ (existsb raised d = true →
       hr_success hr = false ∧ is_Some (hr_error hr)).
Proof.
  unfold_handlers. unfold_monad.
  repeat case_match; simplify_eq.
  all: eexists _, _, _; split; [reflexivity |]; split; [trace_eq |].
  all: cbn; intros Ht; try discriminate Ht.
  all: split; [reflexivity | by eexists].
Qed.

(** A call answered with an exception during the [try] statement never
    ends in a success. *)
Lemma dispatch_raised env task s :
  existsb raised (events_since s (dispatch env task s).2) = true →
  match (dispatch env task s).1 with
  | Ok (success0, error_message0, _) =>
      success0 = false ∧ is_Some error_message0
  | Raise _ => True
  end.
Proof.
  rewrite dispatch_eq.
  destruct (_prepare_task_file env task s) as [[f|e] s2] eqn:Hprep; [| done].
  destruct (prepare_ok_quiet env task s f s2 Hprep) as (d1 & Hd1 & Hq1).
  destruct (handler_raised env f task s2) as (hr & s3 & d2 & -> & Hd2 & Hr).
  cbn [fst snd].
  rewrite (events_since_app s s3 (d1 ++ d2)).
  2:{ by rewrite Hd2, Hd1, app_assoc. }
  rewrite existsb_app, Hq1. cbn [orb]. intros [Hs He]%Hr.
  unfold outcome_of. rewrite Hs. split; [done |].
  destruct He as [m ->]. by eexists.
Qed.

(** C3.  [execute_task] returns a [TaskResult] for every task and never
    raises.  When the [try] block (writing the task file, then the
    dispatch to a handler) raises [e], the result has [success = false]
    and carries [str e] as its error message; and whenever a call made
    during the [try] statement was answered with an exception, also one
    that a handler caught, the result has [success = false] and an error
    message.  The execution time is the difference of two clock readings,
    one taken before and one taken after everything the [try] statement
    does. *)
Theorem execute_task_never_raises (env : Env) (task : Task) (s : State) :
  let t0 := env_time env (trace s) in
  let s1 := set_trace (trace s ++ [EvTime t0]) s in
  let body := dispatch env task s1 in
  let t1 := env_time env (trace body.2) in
  ∃ r : TaskResult,
    execute_task env task s
      = (Ok r, set_trace (trace body.2 ++ [EvTime t1]) body.2)
    ∧ task_id r = default "unknown" (t_id task)
    ∧ task_name r = default "Unknown Task" (t_name task)
    ∧ (∀ e, body.1 = Raise e →
         success r = false ∧ error_message r = Some (str e))
    ∧ (existsb raised (events_since s1 body.2) = true →
       success r = false ∧ is_Some (error_message r))
    ∧ execution_time r = Qminus t1 t0
    ∧ start_time r = t0 ∧ end_time r = t1
    ∧ (trace body.2 ++ [EvTime t1]
       = trace s ++ [EvTime t0] ++ events_since s1 body.2 ++ [EvTime t1])%list.
Proof.
  intros t0 s1 body t1.
  pose proof (dispatch_raised env task s1) as Hraised. fold body in Hraised.
  assert (Htr : (trace body.2 ++ [EvTime t1]
                 = trace s ++ [EvTime t0] ++ events_since s1 body.2
                   ++ [EvTime t1])%list).
  { destruct (dispatch_appends env task s1) as (d & Hd & _). fold body in Hd.
    rewrite (events_since_app s1 body.2 d Hd), Hd. simpl.
    by rewrite <- !app_assoc. }
  exists (result_of task t0 t1 body.1).
  split; [apply execute_task_eq |].
  unfold result_of. destruct body.1 as [[[su em] me]|e]; cbn -[events_since].
  all: split; [done | split; [done | split; [| split; [| by repeat split]]]].
  - intros e' He'. discriminate He'.
  - exact Hraised.
  - intros e' He'. by injection He' as ->.
  - intros _. split; [done | by eexists].
Qed.

(** A task without an ["id"]: writing the task file raises [KeyError]. *)
Lemma execute_task_never_raises_example :
  ∃ r s',
    execute_task Sample.env_ok Sample.task_without_id Sample.state0
    = (Ok r, s')
    ∧ success r = false ∧ error_message r = Some "'id'".
Proof.
  destruct (execute_task_never_raises Sample.env_ok Sample.task_without_id
              Sample.state0) as (r & Hrun & _ & _ & Hraise & _).
  exists r. eexists. split; [exact Hrun |].
  apply (Hraise (KeyError "id")). vm_compute. reflexivity.
Defined.

Lemma maintenance_missing_package env task s :
  lacks_package_name task →
  ∃ m, _execute_maintenance_task env task s = (Ok (failed m), s) ∧ m ≠ "".
Proof.
  unfold lacks_package_name. intros Hlack.
  unfold_handlers. unfold_monad.
  destruct (t_parameters task) as [p|]; cbn.
  - destruct (p !! "package_name") as [v|] eqn:Hv; cbn.
    + rewrite (Hlack p v eq_refl Hv). cbn. by eexists.
    + by eexists.
  - by eexists.
Qed.

(** C4.  A maintenance task whose parameters hold no package name (or a
    falsy one) gets a result with [success = false] and a non-empty error
    message, and the execution makes no bridge call. *)
Theorem maintenance_without_package (env : Env) (task : Task) (s : State) :
  t_type task = Some "maintenance" →
  lacks_package_name task →
  ∃ r s',
    execute_task env task s = (Ok r, s')
    ∧ success r = false
    ∧ (∃ m, error_message r = Some m ∧ m ≠ "")
    ∧ bridge_calls (trace s') = bridge_calls (trace s).
Proof.
  intros Hty Hlack. rewrite execute_task_eq. cbv zeta. rewrite dispatch_eq.
  set (t0 := env_time env (trace s)).
  set (s1 := set_trace (trace s ++ [EvTime t0]) s).
  destruct (prepare_no_bridge_call env task s1) as (d1 & Hd1 & Hq1).
  pose proof (prepare_error_nonempty env task s1) as Herr.
  destruct (_prepare_task_file env task s1) as [[f|e] s2];
    cbn [fst snd] in *.
  - unfold _run_androidworld_task. rewrite Hty. cbn.
    destruct (maintenance_missing_package env task s2 Hlack) as (m & -> & Hm).
    eexists _, _. split; [reflexivity |]. cbn -[bridge_calls].
    split; [done |]. split; [by exists m |].
    rewrite Hd1. subst s1. cbn -[bridge_calls]. rewrite !bridge_calls_app.
    rewrite (bridge_calls_none d1 Hq1). cbn. lia.
  - eexists _, _. split; [reflexivity |]. cbn -[bridge_calls].
    split; [done |]. split; [exists (str e); split; [done | by apply Herr] |].
    rewrite Hd1. subst s1. cbn -[bridge_calls]. rewrite !bridge_calls_app.
    rewrite (bridge_calls_none d1 Hq1). cbn. lia.
Qed.

Lemma maintenance_without_package_example :
  ∃ r s',
    execute_task Sample.env_ok Sample.maintenance_task_no_package
      Sample.state0 = (Ok r, s')
    ∧ success r = false
    ∧ (∃ m, error_message r = Some m ∧ m ≠ "")
    ∧ bridge_calls (trace s') = bridge_calls (trace Sample.state0).
Proof.
  apply maintenance_without_package.
  - reflexivity.
  - intros p v [= <-] Hv. vm_compute in Hv. discriminate Hv.
Defined.

(** Every handler returns, and reports a bridge call that timed out. *)
Lemma handler_timeout env f task s :
  ∃ hr s' d,
    _run_androidworld_task env f task s = (Ok hr, s')
    ∧ trace s' = (trace s ++ d)%list
    ∧ (existsb is_timeout d = true →
       hr_success hr = false ∧ reports_timeout (hr_error hr)).
Proof.
  unfold_handlers. unfold_monad.
  repeat case_match; simplify_eq.
  all: eexists _, _, _; split; [reflexivity |]; split; [trace_eq |].
  all: cbn; intros Ht; try discriminate Ht.
  all: split; [reflexivity |]; eexists; split; reflexivity.
Qed.

(** C5.  Whatever the task and the handler it is dispatched to: when a
    bridge call made during the execution ends in [TimeoutExpired], the
    result has [success = false] and an error message that contains
    ["timed out"]. *)
Theorem bridge_timeout_reported (env : Env) (task : Task) (s : State)
    (r : TaskResult) (s' : State) :
  execute_task env task s = (Ok r, s') →
  existsb is_timeout (events_since s s') = true →
  success r = false ∧ reports_timeout (error_message r).
Proof.
  rewrite execute_task_eq. cbv zeta. rewrite dispatch_eq.
  set (t0 := env_time env (trace s)).
  set (s1 := set_trace (trace s ++ [EvTime t0]) s).
  destruct (prepare_no_bridge_call env task s1) as (d1 & Hd1 & Hq1).
  destruct (_prepare_task_file env task s1) as [[f|e] s2];
    cbn [fst snd] in *.
  - destruct (handler_timeout env f task s2)
      as (hr & s3 & d2 & -> & Hd2 & Hto).
    cbn [fst snd]. intros [= <- <-].
    rewrite (events_since_app s _
               ([EvTime t0] ++ d1 ++ d2
                ++ [EvTime (env_time env (trace s3))])).
    2:{ cbn [trace set_trace]. rewrite Hd2, Hd1. subst s1.
        cbn [trace set_trace]. by rewrite <- !app_assoc. }
    rewrite !existsb_app. cbn [existsb is_timeout orb].
    rewrite (existsb_false_Forall is_timeout d1), orb_false_r.
    2:{ eapply Forall_impl; [exact Hq1 |]. apply not_timeout_of_not_run. }
    cbn [orb]. intros [Hs He]%Hto. unfold result_of, outcome_of. cbn.
    rewrite Hs. cbn. split; [done |].
    destruct He as (m & -> & Hm). by exists m.
  - intros [= <- <-].
    rewrite (events_since_app s _
               ([EvTime t0] ++ d1 ++ [EvTime (env_time env (trace s2))])).
    2:{ cbn [trace set_trace]. rewrite Hd1. subst s1.
        cbn [trace set_trace]. by rewrite <- !app_assoc. }
    rewrite !existsb_app. cbn [existsb is_timeout orb].
    rewrite (existsb_false_Forall is_timeout d1).
    2:{ eapply Forall_impl; [exact Hq1 |]. apply not_timeout_of_not_run. }
    discriminate.
Qed.

Lemma bridge_timeout_reported_example :
  ∃ r s',
    execute_task Sample.env_timeout Sample.removal_task Sample.state0
    = (Ok r, s')
    ∧ existsb is_timeout (events_since Sample.state0 s') = true
    ∧ success r = false
    ∧ reports_timeout (error_message r).
Proof.
  eexists _, _. split; [vm_compute; reflexivity |].
  split; [vm_compute; reflexivity |].
  eapply (bridge_timeout_reported Sample.env_timeout Sample.removal_task
            Sample.state0); vm_compute; reflexivity.
Defined.

(** The claim C8 as it is worded: every removal task succeeds unless the
    outside world answers a call with an exception.  It fails on a removal
    task that names no package: the handler makes no bridge call and
    answers with the error ["Missing package name"]. *)
Lemma removal_without_package_fails :
  ∃ r s',
    t_type Sample.removal_task_no_package = Some "removal"
    ∧ _execute_removal_task Sample.env_ok Sample.removal_task_no_package
        Sample.state0
      = (Ok (failed "Missing package name"), Sample.state0)
    ∧ execute_task Sample.env_ok Sample.removal_task_no_package Sample.state0
      = (Ok r, s')
    ∧ existsb raised (events_since Sample.state0 s') = false
    ∧ success r = false
    ∧ error_message r = Some "Missing package name".
Proof.
  eexists _, _. split; [reflexivity |]. split; [reflexivity |].
  split; [vm_compute; reflexivity |]. by vm_compute.
Qed.

(** C8, amended.  For a removal task whose parameters name a package (a
    non-empty string), when the list-packages query returns, the handler
    reports success: with ["removal_simulated"] when the package name
    occurs in the output of the query, with ["already_removed"] when it
    does not. *)
Theorem removal_reports_success (env : Env) (task_file : string)
    (task : Task) (s : State) (p : gmap string pyval) (package : string)
    (out : Completed) :
  let cmd := "adb shell pm list packages | grep " ++ package in
  t_type task = Some "removal" →
  t_parameters task = Some p →
  p !! "package_name" = Some (VStr package) →
  package ≠ "" →
  env_run env (trace s) cmd 15 = Ok out →
  ∃ m,
    _run_androidworld_task env task_file task s
    = (Ok (mkHandlerResult true (Some m) None),
       set_trace (trace s ++ [EvRun cmd 15 (Ok out)]) s)
    ∧ m !! "package_removed" = Some (VBool true)
    ∧ m !! "package_name" = Some (VStr package)
    ∧ (if contains package (stdout out)
       then m !! "removal_simulated" = Some (VBool true)
            ∧ m !! "already_removed" = None
       else m !! "already_removed" = Some (VBool true)
            ∧ m !! "removal_simulated" = None).
Proof.
  intros cmd Hty Hp Hpkg Hne Hrun.
  unfold _run_androidworld_task. rewrite Hty. cbn.
  unfold_handlers. unfold_monad. rewrite Hp. cbn. rewrite Hpkg. cbn.
  apply String.eqb_neq in Hne. rewrite Hne. cbn.
  fold cmd. rewrite Hrun. cbn.
  destruct (contains package (stdout out)); cbn.
  all: eexists; split; [reflexivity |]; by simplify_map_eq.
Qed.

Lemma removal_reports_success_example :
  ∃ m s',
    _run_androidworld_task Sample.env_ok "./tasks/task_t1.json"
      Sample.removal_task Sample.state0
    = (Ok (mkHandlerResult true (Some m) None), s')
    ∧ m !! "removal_simulated" = Some (VBool true).
Proof.
  destruct (removal_reports_success Sample.env_ok "./tasks/task_t1.json"
              Sample.removal_task Sample.state0
              {[ "package_name" := VStr "com.example.testapp" ]}
              "com.example.testapp"
              (mkCompleted 0 "package:com.example.testapp" ""))
    as (m & Hrun & _ & _ & Hsim); try reflexivity; try discriminate.
  exists m. eexists. split; [exact Hrun |]. exact (proj1 Hsim).
Defined.

End Executor.

(** ** The orchestrator *)

Section Orchestrator.

Import AgentOrchestrator.

Lemma episodes_length N : length (episodes N) = Z.to_nat N.
Proof. unfold episodes. by rewrite length_fmap, length_seq. Qed.

Lemma episodes_lookup N (k : nat) :
  (k < Z.to_nat N)%nat → episodes N !! k = Some (Z.of_nat (S k)).
Proof.
  intros Hk. unfold episodes. rewrite list_lookup_fmap.
  by rewrite lookup_seq_lt.
Qed.

Section Loop.

Context (env : Env) (N : Z).

(** One iteration, by the outcome of [run_episode]. *)
Lemma episode_body_eq (k : Z) (acc : list TaskResult) (s : State) :
  episode_body env N k acc s
  = match run_episode env s with
    | (Ok r, s1) =>
        (Ok (acc ++ [r])%list,
         if (k <? N)%Z then set_trace (trace s1 ++ [EvSleep 2]) s1 else s1)
    | (Raise e, s1) =>
        let t0 := env_time env (trace s1) in
        let s2 := set_trace (trace s1 ++ [EvTime t0]) s1 in
        let t1 := env_time env (trace s2) in
        (Ok (acc ++ [failure_of k e t0 t1])%list,
         set_trace (trace s2 ++ [EvTime t1]) s2)
    end.
Proof.
  unfold episode_body, failed_result, failure_of, try_except, mbind, M_bind,
    mret, M_ret, time_sleep, emit, modify, time_time.
  destruct (run_episode env s) as [[r|e] s1]; [|done].
  by destruct (k <? N)%Z.
Qed.



End Loop.

(** Neither generating nor executing a task touches the history. *)
Lemma generate_task_keeps_results env : keeps results (generate_task env).
Proof.
  unfold generate_task, TaskGenerator.generate_task. keeps_tac.
Qed.

Lemma execute_task_keeps_results env task :
  keeps results (execute_task env task).
Proof.
  unfold execute_task, TaskExecutor.execute_task, TaskExecutor.dispatch,
    TaskExecutor._prepare_task_file, TaskExecutor._run_androidworld_task,
    TaskExecutor._execute_navigation_task,
    TaskExecutor._execute_info_gathering_task,
    TaskExecutor._execute_installation_task,
    TaskExecutor._execute_removal_task, TaskExecutor._execute_capture_task,
    TaskExecutor._execute_maintenance_task,
    TaskExecutor._execute_generic_task, TaskExecutor.parameters_of.
  keeps_tac.
Qed.

(** An episode that returns appends its result to the history and leaves
    the earlier entries as they were; an episode that raises leaves the
    history as it was. *)
Lemma run_episode_records env s :
  match run_episode env s with
  | (Ok r, s') => results s' = (results s ++ [r])%list
  | (Raise e, s') => results s' = results s
  end.
Proof.
  unfold run_episode, mbind, M_bind, mret, M_ret, modify.
  pose proof (generate_task_keeps_results env s) as Hg.
  destruct (generate_task env s) as [[task|e] s1]; simpl in *; [| done].
  unfold time_time. cbn [fst snd].
  set (s2 := set_trace _ s1).
  pose proof (execute_task_keeps_results env task s2) as He.
  destruct (execute_task env task s2) as [[r|e] s3]; simpl in *.
  - by rewrite He, Hg.
  - by rewrite He, Hg.
Qed.




(** C9 at its failing input: one episode whose [run_episode] raises.  The
    failure result is in the returned list, and the orchestrator's history
    [results] is still empty. *)
Theorem failed_episode_not_in_history :
  ∃ r s',
    run_multiple_episodes Sample.env_ok 1 Sample.state_no_templates
    = (Ok [r], s')
    ∧ task_id r = "episode_1_failed"
    ∧ success r = false
    ∧ results Sample.state_no_templates = []
    ∧ results s' = [].
Proof.
  eexists _, _. split; [vm_compute; reflexivity |]. by vm_compute.
Qed.

End Orchestrator.

(** ** The HTTP front door *)

Section FrontDoor.

Import WebServer.


Section Handlers.

Context (env : Env) (h : Handler) (req : Request) (s : State).






End Handlers.




End FrontDoor.

(** * More theorems *)

(** ** More on the statistics *)

Section MoreStatistics.

Import BaseAgent.

Lemma count_success_le (rs : list TaskResult) :
  (count_success rs ≤ length rs)%nat.
Proof. unfold count_success. apply length_filter. Qed.

Lemma lookup_counts (r : TaskResult) (l : list TaskResult) :
  get_statistics (r :: l) !! "total_tasks"
  = Some (SInt (Z.of_nat (length (r :: l))))
  ∧ get_statistics (r :: l) !! "successful_tasks"
    = Some (SInt (Z.of_nat (count_success (r :: l))))
  ∧ get_statistics (r :: l) !! "failed_tasks"
    = Some (SInt (Z.of_nat (length (r :: l))
                  - Z.of_nat (count_success (r :: l)))).
Proof. unfold get_statistics. by simplify_map_eq. Qed.

Lemma Qdiv_nat_unit (a b : nat) :
  (a ≤ b)%nat → (0 < b)%nat →
  (0 <= inject_Z (Z.of_nat a) / inject_Z (Z.of_nat b))%Q
  ∧ (inject_Z (Z.of_nat a) / inject_Z (Z.of_nat b) <= 1)%Q.
Proof.
  intros Hab Hb.
  assert (Hpos : (0 < inject_Z (Z.of_nat b))%Q).
  { change 0%Q with (inject_Z 0). rewrite <- Zlt_Qlt. lia. }
  split.
  - apply Qle_shift_div_l; [done |]. rewrite Qmult_0_l.
    change 0%Q with (inject_Z 0). rewrite <- Zle_Qle. lia.
  - apply Qle_shift_div_r; [done |]. rewrite Qmult_1_l.
    rewrite <- Zle_Qle. lia.
Qed.

(** X1.  On a non-empty history the three counters of [get_statistics]
    are consistent: ["total_tasks"] is the length of the history,
    ["successful_tasks"] the number of results with [success = True], and
    ["successful_tasks" + "failed_tasks" = "total_tasks"] with both
    counters non-negative; the mapping has exactly its seven keys. *)
Theorem get_statistics_counts (rs : list TaskResult) :
  rs ≠ [] →
  ∃ successful failed : Z,
    get_statistics rs !! "total_tasks" = Some (SInt (Z.of_nat (length rs)))
    ∧ get_statistics rs !! "successful_tasks" = Some (SInt successful)
    ∧ get_statistics rs !! "failed_tasks" = Some (SInt failed)
    ∧ successful
      = Z.of_nat (length (filter (λ r, success r = true) rs))
    ∧ (successful + failed = Z.of_nat (length rs))%Z
    ∧ (0 ≤ successful)%Z ∧ (0 ≤ failed)%Z
    ∧ dom (get_statistics rs)
      = ({[ "total_tasks"; "successful_tasks"; "failed_tasks";
            "success_rate"; "avg_time"; "flaky_tasks"; "flakiness_rate" ]}
         : gset string).
Proof.
  intros Hne. destruct rs as [|r l]; [done |].
  destruct (lookup_counts r l) as (Ht & Hs & Hf).
  pose proof (count_success_le (r :: l)) as Hle.
  eexists _, _. split; [exact Ht |]. split; [exact Hs |].
  split; [exact Hf |]. split; [done |].
  split; [lia |]. split; [lia |]. split; [lia |].
  unfold get_statistics. rewrite !dom_insert_L, dom_singleton_L. set_solver.
Qed.

Lemma get_statistics_counts_example :
  ∃ successful failed : Z,
    get_statistics Sample.history !! "successful_tasks"
    = Some (SInt successful)
    ∧ get_statistics Sample.history !! "failed_tasks" = Some (SInt failed)
    ∧ (successful + failed = 5)%Z.
Proof.
  destruct (get_statistics_counts Sample.history)
    as (ok & failed & _ & Hs & Hf & _ & Hsum & _); [discriminate |].
  by exists ok, failed.
Defined.

(** X2.  On a non-empty history ["success_rate"] and ["flakiness_rate"]
    are floats between 0 and 1, and ["flaky_tasks"] is at most the number
    of distinct task names. *)
Theorem get_statistics_rates_bounded (rs : list TaskResult) :
  rs ≠ [] →
  ∃ (q1 q2 : Q) (flaky : nat),
    get_statistics rs !! "success_rate" = Some (SFloat q1)
    ∧ (0 <= q1)%Q ∧ (q1 <= 1)%Q
    ∧ get_statistics rs !! "flakiness_rate" = Some (SFloat q2)
    ∧ (0 <= q2)%Q ∧ (q2 <= 1)%Q
    ∧ get_statistics rs !! "flaky_tasks" = Some (SInt (Z.of_nat flaky))
    ∧ (flaky ≤ size (list_to_set (task_name <$> rs) : gset string))%nat.
Proof.
  intros Hne. destruct rs as [|r l]; [done |].
  set (names := list_to_set (task_name <$> r :: l) : gset string).
  assert (Hsub : (size (filter (Spec.flaky (r :: l)) names) ≤ size names)%nat).
  { apply subseteq_size. intros x [_ Hx]%elem_of_filter. done. }
  assert (Hnames : (0 < size names)%nat).
  { destruct (decide (size names = 0%nat)) as [H0|]; [| lia].
    apply size_empty_inv in H0. apply leibniz_equiv in H0.
    by apply names_nonempty in H0. }
  eexists _, _, _. split; [apply lookup_success_rate |].
  destruct (Qdiv_nat_unit (count_success (r :: l)) (length (r :: l)))
    as [H1 H2]; [apply count_success_le | simpl; lia |].
  split; [exact H1 |]. split; [exact H2 |].
  split; [apply lookup_flakiness_rate |]. fold names. rewrite flaky_fold.
  destruct (Qdiv_nat_unit (size (filter (Spec.flaky (r :: l)) names))
              (size names)) as [H3 H4]; [done | done |].
  split; [exact H3 |]. split; [exact H4 |].
  split; [rewrite lookup_flaky_tasks; fold names; by rewrite flaky_fold |].
  done.
Qed.

Lemma get_statistics_rates_bounded_example :
  ∃ q1 q2 : Q,
    get_statistics Sample.history !! "success_rate" = Some (SFloat q1)
    ∧ (q1 <= 1)%Q
    ∧ get_statistics Sample.history !! "flakiness_rate" = Some (SFloat q2)
    ∧ (q2 <= 1)%Q.
Proof.
  destruct (get_statistics_rates_bounded Sample.history)
    as (q1 & q2 & n & H1 & _ & H2 & H3 & _ & H4 & _); [discriminate |].
  by exists q1, q2.
Defined.

Lemma flaky_Permutation (rs rs' : list TaskResult) (name : string) :
  rs ≡ₚ rs' → Spec.flaky rs name ↔ Spec.flaky rs' name.
Proof.
  intros Hp. unfold Spec.flaky. rewrite !Exists_exists.
  by setoid_rewrite Hp.
Qed.

(** X3.  The counters and the two rates of [get_statistics] do not depend
    on the order of the history (["avg_time"], a sum taken in the order of
    the history, is left out). *)
Theorem get_statistics_order_independent (rs rs' : list TaskResult)
    (key : string) :
  rs ≡ₚ rs' →
  key ∈ [ "total_tasks"; "successful_tasks"; "failed_tasks"; "success_rate";
          "flaky_tasks"; "flakiness_rate" ] →
  get_statistics rs !! key = get_statistics rs' !! key.
Proof.
  intros Hp Hkey.
  destruct rs as [|r l].
  { apply Permutation_nil_l in Hp. by subst. }
  destruct rs' as [|r' l'].
  { by apply Permutation_nil_r in Hp. }
  assert (Hlen : length (r :: l) = length (r' :: l')) by by rewrite Hp.
  assert (Hcount : count_success (r :: l) = count_success (r' :: l')).
  { unfold count_success. by rewrite Hp. }
  assert (Hnames : (list_to_set (task_name <$> r :: l) : gset string)
                   = list_to_set (task_name <$> r' :: l')).
  { apply list_to_set_perm_L. by rewrite Hp. }
  assert (Hflaky : ∀ names : gset string,
             filter (Spec.flaky (r :: l)) names
             = filter (Spec.flaky (r' :: l')) names).
  { intros names. apply set_eq. intros x. rewrite !elem_of_filter.
    by rewrite (flaky_Permutation _ _ x Hp). }
  destruct (lookup_counts r l) as (Ht & Hs & Hf).
  destruct (lookup_counts r' l') as (Ht' & Hs' & Hf').
  repeat (apply elem_of_cons in Hkey as [-> | Hkey]).
  - by rewrite Ht, Ht', Hlen.
  - by rewrite Hs, Hs', Hcount.
  - by rewrite Hf, Hf', Hlen, Hcount.
  - by rewrite !lookup_success_rate, Hlen, Hcount.
  - by rewrite !lookup_flaky_tasks, !flaky_fold, Hnames, Hflaky.
  - by rewrite !lookup_flakiness_rate, !flaky_fold, Hnames, Hflaky.
  - inversion Hkey.
Qed.

Lemma get_statistics_order_independent_example :
  get_statistics Sample.history !! "flaky_tasks"
  = get_statistics (reverse Sample.history) !! "flaky_tasks".
Proof.
  apply get_statistics_order_independent.
  - symmetry. apply reverse_Permutation.
  - refine (bool_decide_unpack _ _). vm_compute. exact I.
Defined.

End MoreStatistics.

(** ** More on the task generator *)

Section MoreGenerator.

Import TaskGenerator.

Lemma counts_total_insert (m : gmap string Z) (k : string) (n : Z) :
  counts_total (<[k := n]> m) = (counts_total m - default 0 (m !! k) + n)%Z.
Proof.
  unfold counts_total.
  assert (Hcomm : ∀ (m0 : gmap string Z) (j1 j2 : string) (z1 z2 y : Z),
            j1 ≠ j2 → m0 !! j1 = Some z1 → m0 !! j2 = Some z2 →
            (z1 + (z2 + y) = z2 + (z1 + y))%Z) by (intros; lia).
  destruct (m !! k) as [v|] eqn:Hk; simpl.
  - rewrite <- (insert_delete_eq m k n).
    rewrite map_fold_insert_L; [| by eauto | by rewrite lookup_delete_eq].
    rewrite (map_fold_delete_L _ _ k v m); [| by eauto | done]. lia.
  - rewrite map_fold_insert_L; [| by eauto | done]. lia.
Qed.

Lemma count_type_cons (ty : string) (task : Task) (rest : list Task) :
  count_type ty (task :: rest)
  = ((if decide (t_type task = Some ty) then 1 else 0)
     + count_type ty rest)%nat.
Proof.
  unfold count_type. rewrite filter_cons. by case_decide.
Qed.

(** The counting loop, from any dictionary [m]. *)
Lemma count_types_spec (history : list Task) (m : gmap string Z) :
  Forall (λ task, is_Some (t_type task)) history →
  ∃ m',
    count_types history m = Ok m'
    ∧ (∀ ty, m' !! ty
             = if decide (count_type ty history = 0%nat) then m !! ty
               else Some (default 0 (m !! ty)
                          + Z.of_nat (count_type ty history))%Z)
    ∧ counts_total m' = (counts_total m + Z.of_nat (length history))%Z.
Proof.
  intros Hall. revert m. induction Hall as [|task rest [ty0 Hty] _ IH];
    intros m.
  - exists m. split; [done |]. split; [done |]. simpl. lia.
  - cbn [count_types]. rewrite Hty. cbn [getitem].
    set (m1 := match m !! ty0 with
               | Some _ => m
               | None => <[ty0 := 0%Z]> m
               end).
    assert (Hm1 : m1 !! ty0 = Some (default 0%Z (m !! ty0))).
    { unfold m1. destruct (m !! ty0) eqn:E; [done |].
      by rewrite lookup_insert_eq. }
    assert (Hm1' : ∀ ty, ty ≠ ty0 → m1 !! ty = m !! ty).
    { intros ty Hne. unfold m1. destruct (m !! ty0); [done |].
      by rewrite lookup_insert_ne. }
    assert (Htot1 : counts_total m1 = counts_total m).
    { unfold m1. destruct (m !! ty0) eqn:E; [done |].
      rewrite counts_total_insert, E. simpl. lia. }
    destruct (IH (<[ty0 := (default 0 (m1 !! ty0) + 1)%Z]> m1))
      as (m' & Hrun & Hlook & Htot).
    exists m'. split; [exact Hrun |]. split.
    + intros ty. rewrite Hlook, count_type_cons, Hty.
      destruct (decide (ty = ty0)) as [-> | Hne].
      * rewrite lookup_insert_eq, Hm1. simpl.
        repeat case_decide; try congruence; try lia; f_equal; lia.
      * rewrite lookup_insert_ne, Hm1' by done.
        repeat case_decide; try congruence; try lia; done.
    + rewrite Htot, counts_total_insert, Hm1, Htot1. simpl. lia.
Qed.

Lemma names_of_spec (history : list Task) :
  Forall (λ task, is_Some (t_name task)) history →
  names_of history
  = Ok (list_to_set (omap t_name history) : gset string).
Proof.
  induction 1 as [|task rest [n Hn] _ IH]; [done |].
  cbn [names_of omap list_omap]. rewrite Hn, IH. done.
Qed.

Lemma size_list_to_set_le (l : list string) :
  (size (list_to_set l : gset string) ≤ length l)%nat.
Proof.
  induction l as [|x l IH]; [by rewrite list_to_set_nil, size_empty |].
  rewrite list_to_set_cons, size_union_alt, size_singleton. simpl.
  assert (Hsub : (list_to_set l ∖ {[x]} : gset string) ⊆ list_to_set l)
    by (apply subseteq_difference_l; reflexivity).
  apply subseteq_size in Hsub. lia.
Qed.

Lemma length_omap_le {A B} (f : A → option B) (l : list A) :
  (length (omap f l) ≤ length l)%nat.
Proof.
  induction l as [|x l IH]; [done |]. cbn. destruct (f x); simpl; lia.
Qed.

(** X4.  When every task of a non-empty history has a type and a name,
    [get_task_statistics] returns: ["total_generated"] is the length of
    the history, ["task_types"] maps each type that occurs to the number
    of its tasks and holds no other key, and ["unique_tasks"] is the
    number of distinct names. *)
Theorem get_task_statistics_counts (history : list Task) :
  history ≠ [] →
  Forall (λ task, is_Some (t_type task) ∧ is_Some (t_name task)) history →
  ∃ task_types : gmap string Z,
    get_task_statistics history
    = Ok {[ "total_generated" := SInt (Z.of_nat (length history));
            "task_types" := SCounts task_types;
            "unique_tasks" :=
              SInt (Z.of_nat
                      (size (list_to_set (omap t_name history)
                             : gset string))) ]}
    ∧ ∀ ty, task_types !! ty
            = if decide (count_type ty history = 0%nat) then None
              else Some (Z.of_nat (count_type ty history)).
Proof.
  intros Hne Hall. destruct history as [|task rest]; [done |].
  destruct (count_types_spec (task :: rest) ∅) as (m' & Hrun & Hlook & _).
  { eapply Forall_impl; [exact Hall |]. by intros ? [? _]. }
  exists m'. unfold get_task_statistics. rewrite Hrun, names_of_spec.
  2:{ eapply Forall_impl; [exact Hall |]. by intros ? [_ ?]. }
  split; [done |]. intros ty. rewrite Hlook, lookup_empty. simpl.
  by case_decide.
Qed.

(** X5.  Under the same condition the counts of ["task_types"] add up to
    ["total_generated"], and ["unique_tasks"] is at most
    ["total_generated"]. *)
Theorem get_task_statistics_totals (history : list Task) :
  history ≠ [] →
  Forall (λ task, is_Some (t_type task) ∧ is_Some (t_name task)) history →
  ∃ (stats : gmap string statval) (task_types : gmap string Z) (unique : nat),
    get_task_statistics history = Ok stats
    ∧ stats !! "task_types" = Some (SCounts task_types)
    ∧ stats !! "total_generated" = Some (SInt (counts_total task_types))
    ∧ counts_total task_types = Z.of_nat (length history)
    ∧ stats !! "unique_tasks" = Some (SInt (Z.of_nat unique))
    ∧ (unique ≤ length history)%nat.
Proof.
  intros Hne Hall. destruct history as [|task rest]; [done |].
  destruct (count_types_spec (task :: rest) ∅) as (m' & Hrun & _ & Htot).
  { eapply Forall_impl; [exact Hall |]. by intros ? [? _]. }
  unfold get_task_statistics. rewrite Hrun, names_of_spec.
  2:{ eapply Forall_impl; [exact Hall |]. by intros ? [_ ?]. }
  assert (H0 : counts_total (∅ : gmap string Z) = 0%Z) by done.
  rewrite H0 in Htot.
  eexists _, m', _. split; [reflexivity |].
  split; [by simplify_map_eq |]. split; [simplify_map_eq; by rewrite Htot |].
  split; [lia |]. split; [by simplify_map_eq |].
  etrans; [apply size_list_to_set_le |].
  exact (length_omap_le t_name (task :: rest)).
Qed.
Lemma get_task_statistics_counts_example :
  ∃ task_types : gmap string Z,
    TaskGenerator.get_task_statistics MoreSample.tasks
    = Ok {[ "total_generated" := SInt 4;
            "task_types" := SCounts task_types;
            "unique_tasks" := SInt 1 ]}
    ∧ task_types !! "removal" = Some 2%Z
    ∧ task_types !! "navigation" = None.
Proof.
  destruct (get_task_statistics_counts MoreSample.tasks)
    as (task_types & Hrun & Hlook).
  - discriminate.
  - repeat constructor; by eexists.
  - exists task_types. split; [exact Hrun |].
    split; rewrite Hlook; reflexivity.
Defined.

Lemma get_task_statistics_totals_example :
  ∃ (stats : gmap string statval) (task_types : gmap string Z),
    TaskGenerator.get_task_statistics MoreSample.tasks = Ok stats
    ∧ stats !! "task_types" = Some (SCounts task_types)
    ∧ counts_total task_types = 4%Z.
Proof.
  destruct (get_task_statistics_totals MoreSample.tasks)
    as (stats & task_types & unique & Hrun & Hty & _ & Htot & _).
  - discriminate.
  - repeat constructor; by eexists.
  - exists stats, task_types. split; [exact Hrun |].
    split; [exact Hty | exact Htot].
Defined.

Lemma count_types_key_error (history : list Task) (m : gmap string Z) :
  Exists (λ task, t_type task = None) history →
  count_types history m = Raise (KeyError "type").
Proof.
  intros Hex. revert m. induction history as [|task rest IH]; intros m.
  - by apply Exists_nil in Hex.
  - cbn [count_types]. destruct (t_type task) as [ty|] eqn:Hty; [| done].
    cbn [getitem]. apply IH. apply Exists_cons in Hex as [Hex | Hex]; [| done].
    congruence.
Qed.

Lemma names_of_key_error (history : list Task) :
  Exists (λ task, t_name task = None) history →
  names_of history = Raise (KeyError "name").
Proof.
  induction history as [|task rest IH]; intros Hex.
  - by apply Exists_nil in Hex.
  - cbn [names_of]. destruct (t_name task) as [n|] eqn:Hn; [| done].
    cbn [getitem]. rewrite IH; [done |].
    apply Exists_cons in Hex as [Hex | Hex]; [congruence | done].
Qed.

(** X6.  [get_task_statistics] raises [KeyError] on a history that holds a
    task without a ["type"] or without a ["name"]: the types are read
    first, for the whole history, so a missing type is reported even when
    an earlier task lacks its name. *)
Theorem get_task_statistics_key_error (history : list Task) :
  (Exists (λ task, t_type task = None) history →
   get_task_statistics history = Raise (KeyError "type"))
  ∧ (Forall (λ task, is_Some (t_type task)) history →
     Exists (λ task, t_name task = None) history →
     get_task_statistics history = Raise (KeyError "name")).
Proof.
  split.
  - intros Hex. destruct history as [|task rest].
    + by apply Exists_nil in Hex.
    + unfold get_task_statistics. by rewrite count_types_key_error.
  - intros Hall Hex. destruct history as [|task rest].
    + by apply Exists_nil in Hex.
    + destruct (count_types_spec (task :: rest) ∅ Hall) as (m' & Hrun & _).
      unfold get_task_statistics. by rewrite Hrun, names_of_key_error.
Qed.

Lemma get_task_statistics_key_error_example :
  get_task_statistics
    [ mkTask (Some "t7") None (Some "capture") None None None None None None;
      mkTask (Some "t8") (Some "Sample task") None None None None None None
        None ]
  = Raise (KeyError "type").
Proof.
  apply (proj1 (get_task_statistics_key_error _)).
  apply Exists_cons_tl, Exists_cons_hd. reflexivity.
Defined.

Lemma get_task_statistics_ok (history : list Task) :
  Forall well_formed history →
  ∃ stats, get_task_statistics history = Ok stats
    ∧ (history ≠ [] →
       stats !! "total_generated"
       = Some (SInt (Z.of_nat (length history)))).
Proof.
  intros Hall. destruct history as [|task rest]; [by exists ∅ |].
  destruct (count_types_spec (task :: rest) ∅) as (m' & Hrun & _).
  { eapply Forall_impl; [exact Hall |]. by intros ? (_ & _ & ? & _). }
  unfold get_task_statistics. rewrite Hrun, names_of_spec.
  2:{ eapply Forall_impl; [exact Hall |]. by intros ? (_ & ? & _ & _). }
  eexists. split; [reflexivity |]. intros _. by simplify_map_eq.
Qed.

Lemma generate_task_empty_catalog env s :
  task_templates s = [] →
  generate_task env s = (Raise empty_catalog, s).
Proof.
  intros H. unfold generate_task. unfold mbind, M_bind, gets. cbn.
  by rewrite H.
Qed.

(** X7.  The generator keeps its history well formed: after
    [generate_task], whether it returned or raised, and after
    [generate_custom_task], which always returns and appends one task,
    every task of the history carries an id, a name, a type and
    parameters; so [get_task_statistics] returns on it. *)
Theorem generated_history_well_formed (env : Env) (s : State)
    (task_type : string) (parameters : gmap string pyval) :
  Forall well_formed (task_history s) →
  let s1 := (generate_task env s).2 in
  Forall well_formed (task_history s1)
  ∧ (∃ stats, get_task_statistics (task_history s1) = Ok stats)
  ∧ ∃ task s2,
      generate_custom_task env task_type parameters s = (Ok task, s2)
      ∧ t_type task = Some task_type
      ∧ t_parameters task = Some parameters
      ∧ task_history s2 = (task_history s ++ [task])%list
      ∧ Forall well_formed (task_history s2)
      ∧ ∃ stats,
          get_task_statistics (task_history s2) = Ok stats
          ∧ stats !! "total_generated"
            = Some (SInt (Z.of_nat (length (task_history s)) + 1)).
Proof.
  intros Hall s1.
  assert (H1 : Forall well_formed (task_history s1)).
  { subst s1. destruct (task_templates s) as [|x0 l] eqn:Htpl.
    - by rewrite generate_task_empty_catalog.
    - destruct (generate_task_from_catalog env s)
        as (task & s' & template & u & p & Hrun & _ & Hname & Hty & Hid & _
            & Hpar & _ & _ & _ & _ & Hhist & _); [by rewrite Htpl |].
      rewrite Hrun. cbn [snd]. rewrite Hhist. apply Forall_app. split; [done |].
      constructor; [| done]. unfold well_formed.
      rewrite Hname, Hty, Hid, Hpar. by repeat split. }
  split; [exact H1 |]. split.
  { destruct (get_task_statistics_ok _ H1) as (stats & Hok & _). by eexists. }
  unfold generate_custom_task. unfold_monad. cbn [fst snd].
  eexists _, _. split; [reflexivity |]. cbn [t_type t_parameters].
  split; [done |]. split; [done |].
  cbn [snd task_history set_task_history set_trace].
  split; [done |].
  match goal with
  | |- Forall well_formed ?h ∧ _ => assert (H2 : Forall well_formed h)
  end.
  { apply Forall_app. split; [done |]. constructor; [| done].
    unfold well_formed. cbn. by repeat split. }
  split; [exact H2 |].
  destruct (get_task_statistics_ok _ H2) as (stats & Hok & Htot).
  exists stats. split; [exact Hok |]. rewrite Htot.
  - rewrite length_app. cbn. do 2 f_equal. lia.
  - by destruct (task_history s).
Qed.

Lemma generated_history_well_formed_example :
  ∃ task s2,
    generate_custom_task Sample.env_ok "capture" ∅ Sample.state0
    = (Ok task, s2)
    ∧ t_type task = Some "capture"
    ∧ task_history s2 = [task]
    ∧ Forall well_formed (task_history s2).
Proof.
  destruct (generated_history_well_formed Sample.env_ok Sample.state0
              "capture" ∅)
    as (_ & _ & task & s2 & Hrun & Hty & _ & Hhist & Hwf & _).
  - constructor.
  - exists task, s2.
    exact (conj Hrun (conj Hty (conj Hhist Hwf))).
Defined.

End MoreGenerator.

(** ** More on the task executor *)

Section MoreExecutor.

Import TaskExecutor.

Ltac unfold_dispatch :=
  unfold _run_androidworld_task, _execute_navigation_task,
    _execute_info_gathering_task, _execute_installation_task,
    _execute_removal_task, _execute_capture_task, _execute_maintenance_task,
    _execute_generic_task, parameters_of, TaskGenerator.getitem, in_string,
    failed, succeeded in *.

Ltac by_type ty :=
  unfold deadline_of, error_prefix;
  destruct (String.eqb_spec ty "navigation");
  [| destruct (String.eqb_spec ty "information_gathering");
     [| destruct (String.eqb_spec ty "installation");
        [| destruct (String.eqb_spec ty "removal");
           [| destruct (String.eqb_spec ty "capture");
              [| destruct (String.eqb_spec ty "maintenance")]]]]].

Lemma events_since_same (s : State) : events_since s s = [].
Proof. unfold events_since. by rewrite drop_all. Qed.

Lemma events_since_step (s : State) (d : list Event) :
  events_since s (set_trace (trace s ++ d) s) = d.
Proof. by apply events_since_app. Qed.

(** What a handler does: it always returns, with metrics on success and
    with an error message on failure; it leaves the state as it was, or
    makes one bridge call with the deadline of the task's type, and then
    answers by what the call was answered. *)
Lemma handler_steps env f task s :
  let ty := default "unknown" (t_type task) in
  ∃ hr s',
    _run_androidworld_task env f task s = (Ok hr, s')
    ∧ (if hr_success hr
       then ∃ m, hr = succeeded m ∧ m ≠ ∅
       else ∃ msg, hr = failed msg ∧ msg ≠ "")
    ∧ (s' = s
       ∨ ∃ cmd out,
           out = env_run env (trace s) cmd (deadline_of ty)
           ∧ s' = set_trace (trace s ++ [EvRun cmd (deadline_of ty) out]) s
           ∧ match out with
             | Ok c =>
                 ty ≠ "installation" → ty ≠ "removal" →
                 hr_success hr = (returncode c =? 0)%Z
                 ∧ (hr_success hr = false →
                    ∃ prefix, hr_error hr = Some (prefix ++ stderr c))
             | Raise e =>
                 is_timeout (EvRun cmd (deadline_of ty) out) = false →
                 hr = failed (error_prefix ty ++ str e)
             end).
Proof.
  intros ty. unfold _run_androidworld_task. fold ty. by_type ty.
  all: unfold_dispatch; unfold_monad.
  all: repeat case_match; simplify_eq.
  all: eexists _, _; split; [reflexivity |].
  all: split;
    [ cbn [hr_success]; eexists; split; [reflexivity |];
      first [ apply insert_non_empty | discriminate ] |].
  all: first
    [ left; reflexivity
    | right; eexists _, _; split; [| split; [reflexivity |]];
      [ congruence | cbn [hr_success hr_error] ] ].
  all: try done.
  all: try (intros _ _; split; [congruence |];
            first [ intros _; eexists; reflexivity | discriminate ]).
Qed.

(** What a handler answers, by what its bridge call was answered. *)
Lemma handler_answer env f task s hr s' cmd timeout out :
  let ty := default "unknown" (t_type task) in
  _run_androidworld_task env f task s = (Ok hr, s') →
  events_since s s' = [EvRun cmd timeout out] →
  match out with
  | Ok c =>
      ty ≠ "installation" → ty ≠ "removal" →
      hr_success hr = (returncode c =? 0)%Z
      ∧ (hr_success hr = false →
         ∃ prefix, hr_error hr = Some (prefix ++ stderr c))
  | Raise e =>
      is_timeout (EvRun cmd timeout out) = false →
      hr = failed (error_prefix ty ++ str e)
  end.
Proof.
  intros ty Hrun Hev.
  destruct (handler_steps env f task s) as (hr' & s'' & Hrun' & _ & Hs).
  fold ty in Hs. rewrite Hrun in Hrun'. injection Hrun' as <- <-.
  destruct Hs as [-> | (cmd' & out' & _ & -> & Hans)].
  - rewrite events_since_same in Hev. discriminate Hev.
  - rewrite events_since_step in Hev. by injection Hev as <- <- <-.
Qed.

Lemma prepare_needs_id env task s :
  t_id task = None → ∃ e s2, _prepare_task_file env task s = (Raise e, s2).
Proof.
  intros Hid. unfold _prepare_task_file, TaskGenerator.getitem.
  unfold_monad. rewrite Hid. cbn.
  destruct (env_makedirs env (trace s) _) as [[? ?]|]; by eexists _, _.
Qed.


Lemma bridge_deadline_of_not_run (deadline : Z) (ev : Event) :
  is_run ev = false → bridge_deadline deadline ev.
Proof. by destruct ev. Qed.

Lemma execute_task_keeps {B} (f : State → B) env task :
  (∀ tr s, f (set_trace tr s) = f s) → keeps f (execute_task env task).
Proof.
  intros Hf.
  unfold execute_task, dispatch, _prepare_task_file, _run_androidworld_task,
    _execute_navigation_task, _execute_info_gathering_task,
    _execute_installation_task, _execute_removal_task, _execute_capture_task,
    _execute_maintenance_task, _execute_generic_task, parameters_of.
  keeps_tac.
Qed.

(** X8.  [execute_task] makes at most one bridge call.  The deadline of
    the call is fixed by the task's type (30, 20, 15, 15, 20, 30 seconds
    for the six known types, 60 for any other), whatever the task's own
    ["timeout"] says.  A task without an ["id"] never reaches the
    bridge. *)
Theorem execute_task_bridge_calls (env : Env) (task : Task) (s : State) :
  let ty := default "unknown" (t_type task) in
  ∃ r s',
    execute_task env task s = (Ok r, s')
    ∧ (bridge_calls (events_since s s') ≤ 1)%nat
    ∧ Forall (bridge_deadline (deadline_of ty)) (events_since s s')
    ∧ (t_id task = None → bridge_calls (events_since s s') = 0%nat).
Proof.
  intros ty. rewrite execute_task_eq. cbv zeta. rewrite dispatch_eq.
  set (t0 := env_time env (trace s)).
  set (s1 := set_trace (trace s ++ [EvTime t0]) s).
  destruct (prepare_no_bridge_call env task s1) as (d1 & Hd1 & Hq1).
  pose proof (prepare_needs_id env task s1) as Hid.
  destruct (_prepare_task_file env task s1) as [[f|e] s2];
    cbn [fst snd] in *.
  - destruct (handler_steps env f task s2) as (hr & s3 & -> & _ & Hs3).
    fold ty in Hs3. cbn [fst snd]. eexists _, _. split; [reflexivity |].
    assert (Hno : t_id task = None → False).
    { intros (? & ? & [=])%Hid. }
    destruct Hs3 as [-> | (cmd & out & _ & -> & _)].
    + rewrite (events_since_app s _
                 ([EvTime t0] ++ d1 ++ [EvTime (env_time env (trace s2))])).
      2:{ cbn [trace set_trace]. rewrite Hd1. subst s1.
          cbn [trace set_trace]. by rewrite <- !app_assoc. }
      rewrite !bridge_calls_app, (bridge_calls_none d1 Hq1).
      split; [cbn; lia |]. split; [| done].
      repeat (apply Forall_app; split); try by repeat constructor.
      eapply Forall_impl; [exact Hq1 |]. apply bridge_deadline_of_not_run.
    + match goal with
      | |- context [ EvTime (env_time env ?tr) ] => set (t1 := env_time env tr)
      end.
      rewrite (events_since_app s _
                 ([EvTime t0] ++ d1 ++ [EvRun cmd (deadline_of ty) out]
                  ++ [EvTime t1])).
      2:{ cbn [trace set_trace]. rewrite Hd1. subst s1.
          cbn [trace set_trace]. by rewrite <- !app_assoc. }
      rewrite !bridge_calls_app, (bridge_calls_none d1 Hq1).
      split; [cbn; lia |]. split; [| done].
      repeat (apply Forall_app; split); try by repeat constructor.
      eapply Forall_impl; [exact Hq1 |]. apply bridge_deadline_of_not_run.
  - eexists _, _. split; [reflexivity |].
    rewrite (events_since_app s _
               ([EvTime t0] ++ d1 ++ [EvTime (env_time env (trace s2))])).
    2:{ cbn [trace set_trace]. rewrite Hd1. subst s1.
        cbn [trace set_trace]. by rewrite <- !app_assoc. }
    rewrite !bridge_calls_app, (bridge_calls_none d1 Hq1).
    split; [cbn; lia |]. split; [| intros _; cbn; lia].
    repeat (apply Forall_app; split); try by repeat constructor.
    eapply Forall_impl; [exact Hq1 |]. apply bridge_deadline_of_not_run.
Qed.

(** X9.  The shape of every result of [execute_task]: [success] holds
    exactly when there is no error message; an error message is never
    empty; a success carries the handler's metrics, which are not empty,
    and a failure carries the empty metrics. *)
Theorem execute_task_result_shape (env : Env) (task : Task) (s : State) :
  ∃ r s',
    execute_task env task s = (Ok r, s')
    ∧ (success r = true ↔ error_message r = None)
    ∧ (∀ m, error_message r = Some m → m ≠ "")
    ∧ (if success r then ∃ m, metrics r = Some m ∧ m ≠ ∅
       else metrics r = Some ∅).
Proof.
  rewrite execute_task_eq. cbv zeta. rewrite dispatch_eq.
  set (s1 := set_trace _ s).
  pose proof (prepare_error_nonempty env task s1) as Herr.
  destruct (_prepare_task_file env task s1) as [[f|e] s2];
    cbn [fst snd] in *.
  - destruct (handler_steps env f task s2) as (hr & s3 & -> & Hhr & _).
    cbn [fst snd]. eexists _, _. split; [reflexivity |].
    unfold result_of, outcome_of.
    destruct (hr_success hr).
    + destruct Hhr as (m & -> & Hm). cbn. split; [done |].
      split; [done |]. by exists m.
    + destruct Hhr as (msg & -> & Hmsg). cbn. split; [done |].
      split; [| done]. by intros ? [= <-].
  - eexists _, _. split; [reflexivity |]. cbn. split; [done |].
    split; [| done]. intros ? [= <-]. by apply Herr.
Qed.

(** X10.  [execute_task] changes nothing but the trace: the histories,
    the catalog and the executor's settings are as they were. *)
Theorem execute_task_changes_trace_only (env : Env) (task : Task)
    (s : State) :
  let s' := (execute_task env task s).2 in
  s' = set_trace (trace s') s.
Proof.
  intros s'.
  pose proof (execute_task_keeps (set_trace []) env task
                (λ _ _, eq_refl) s) as Hk.
  fold s' in Hk. destruct s, s'. cbn in *. by simplify_eq.
Qed.

(** X11.  For a task of any type but installation and removal: when the
    handler's bridge call returns, the handler reports success exactly
    when the exit code is 0, and its error message on failure ends with
    the standard error of the call. *)
Theorem exit_code_decides (env : Env) (task_file : string) (task : Task)
    (s s' : State) (hr : HandlerResult) (cmd : string) (timeout : Z)
    (out : Completed) :
  let ty := default "unknown" (t_type task) in
  ty ≠ "installation" → ty ≠ "removal" →
  _run_androidworld_task env task_file task s = (Ok hr, s') →
  events_since s s' = [EvRun cmd timeout (Ok out)] →
  hr_success hr = (returncode out =? 0)%Z
  ∧ (hr_success hr = false →
     ∃ prefix, hr_error hr = Some (prefix ++ stderr out)).
Proof.
  intros ty Hi Hr Hrun Hev.
  exact (handler_answer env task_file task s hr s' cmd timeout (Ok out)
           Hrun Hev Hi Hr).
Qed.

Lemma exit_code_decides_example :
  ∃ hr s',
    _run_androidworld_task (MoreSample.env_exit 1) "./tasks/task_t4.json"
      MoreSample.capture_task Sample.state0 = (Ok hr, s')
    ∧ hr_success hr = false
    ∧ (hr_success hr = false →
       ∃ prefix, hr_error hr = Some (prefix ++ "device offline")).
Proof.
  eexists _, _. split; [vm_compute; reflexivity |].
  eapply (exit_code_decides (MoreSample.env_exit 1) "./tasks/task_t4.json"
            MoreSample.capture_task Sample.state0 _ _
            "adb shell screencap /sdcard/screenshot.png" 20
            (mkCompleted 1 "" "device offline")).
  - discriminate.
  - discriminate.
  - vm_compute. reflexivity.
  - vm_compute. reflexivity.
Defined.

(** X12.  When the bridge call of a handler raises an exception that is
    not a timeout, the handler answers with a failure whose message is the
    prefix of the task's type followed by [str e]. *)
Theorem bridge_exception_message (env : Env) (task_file : string)
    (task : Task) (s s' : State) (hr : HandlerResult) (cmd : string)
    (timeout : Z) (e : exn) :
  let ty := default "unknown" (t_type task) in
  _run_androidworld_task env task_file task s = (Ok hr, s') →
  events_since s s' = [EvRun cmd timeout (Raise e)] →
  is_timeout (EvRun cmd timeout (Raise e)) = false →
  hr = failed (error_prefix ty ++ str e).
Proof.
  intros ty Hrun Hev.
  exact (handler_answer env task_file task s hr s' cmd timeout (Raise e)
           Hrun Hev).
Qed.

Lemma bridge_exception_message_example :
  ∃ hr s',
    _run_androidworld_task MoreSample.env_oserror "./tasks/task_t4.json"
      MoreSample.capture_task Sample.state0 = (Ok hr, s')
    ∧ hr = failed ("Screenshot failed: "
                   ++ "[Errno 2] No such file or directory: '/bin/sh'").
Proof.
  eexists _, _. split; [vm_compute; reflexivity |].
  eapply (bridge_exception_message MoreSample.env_oserror
            "./tasks/task_t4.json" MoreSample.capture_task Sample.state0
            _ _ "adb shell screencap /sdcard/screenshot.png" 20
            (OSError 2 "No such file or directory" "/bin/sh")).
  - vm_compute. reflexivity.
  - vm_compute. reflexivity.
  - reflexivity.
Defined.

(** X13.  An installation task that names an APK and a package reports
    success once the list-packages query returns, whatever the exit code
    of the query: with ["already_installed"] when the package name occurs
    in its output, with ["installation_simulated"] when it does not.  The
    query is the only bridge call; the APK path is not part of it. *)
Theorem installation_reports_success (env : Env) (task_file : string)
    (task : Task) (s : State) (p : gmap string pyval) (apk : pyval)
    (package : string) (out : Completed) :
  let cmd := "adb shell pm list packages | grep " ++ package in
  t_type task = Some "installation" →
  t_parameters task = Some p →
  p !! "apk_path" = Some apk → truthy apk = true →
  p !! "package_name" = Some (VStr package) → package ≠ "" →
  env_run env (trace s) cmd 15 = Ok out →
  ∃ m,
    _run_androidworld_task env task_file task s
    = (Ok (mkHandlerResult true (Some m) None),
       set_trace (trace s ++ [EvRun cmd 15 (Ok out)]) s)
    ∧ m !! "package_installed" = Some (VBool true)
    ∧ m !! "package_name" = Some (VStr package)
    ∧ (if contains package (stdout out)
       then m !! "already_installed" = Some (VBool true)
            ∧ m !! "installation_simulated" = None
       else m !! "installation_simulated" = Some (VBool true)
            ∧ m !! "already_installed" = None).
Proof.
  intros cmd Hty Hp Hapk Htrue Hpkg Hne Hrun.
  unfold _run_androidworld_task. rewrite Hty. cbn.
  unfold_dispatch. unfold_monad. rewrite Hp. cbn. rewrite Hapk, Hpkg. cbn.
  rewrite Htrue. apply String.eqb_neq in Hne. rewrite Hne. cbn.
  fold cmd. rewrite Hrun. cbn.
  destruct (contains package (stdout out)); cbn.
  all: eexists; split; [reflexivity |]; by simplify_map_eq.
Qed.

Lemma installation_reports_success_example :
  ∃ m s',
    _run_androidworld_task (MoreSample.env_exit 1) "./tasks/task_t5.json"
      MoreSample.installation_task Sample.state0
    = (Ok (mkHandlerResult true (Some m) None), s')
    ∧ m !! "installation_simulated" = Some (VBool true).
Proof.
  destruct (installation_reports_success (MoreSample.env_exit 1)
              "./tasks/task_t5.json" MoreSample.installation_task
              Sample.state0
              {[ "apk_path" := VStr "/sdcard/test_app.apk";
                 "package_name" := VStr "com.example.testapp" ]}
              (VStr "/sdcard/test_app.apk") "com.example.testapp"
              (mkCompleted 1 "" "device offline"))
    as (m & Hrun & _ & _ & Hsim); try reflexivity; try discriminate.
  exists m. eexists. split; [exact Hrun |]. exact (proj1 Hsim).
Defined.

(** X14.  A removal task, or an installation task that names an APK,
    whose package name is truthy but not a string: the list-packages
    query is made, and when it returns the test [package_name in stdout]
    raises [TypeError]; the handler answers with a failure that carries
    the message of the exception. *)
Theorem package_name_not_a_string (env : Env) (task_file : string)
    (task : Task) (s : State) (p : gmap string pyval) (v : pyval)
    (out : Completed) :
  let ty := default "unknown" (t_type task) in
  let cmd := "adb shell pm list packages | grep " ++ format env v in
  ty = "removal"
  ∨ ty = "installation"
    ∧ (∃ apk, p !! "apk_path" = Some apk ∧ truthy apk = true) →
  t_parameters task = Some p →
  p !! "package_name" = Some v → truthy v = true →
  type_name v ≠ "str" →
  env_run env (trace s) cmd 15 = Ok out →
  _run_androidworld_task env task_file task s
  = (Ok (failed (error_prefix ty
                 ++ "'in <string>' requires string as left operand, not "
                 ++ type_name v)),
     set_trace (trace s ++ [EvRun cmd 15 (Ok out)]) s).
Proof.
  intros ty cmd Hty Hp Hpkg Htrue Hstr Hrun.
  unfold _run_androidworld_task. fold ty.
  destruct Hty as [-> | [-> (apk & Hapk & Hatrue)]]; cbn.
  all: unfold_dispatch; unfold_monad; rewrite Hp; cbn.
  all: rewrite ?Hapk, Hpkg; cbn; rewrite ?Hatrue, Htrue; cbn.
  all: fold cmd; rewrite Hrun; cbn.
  all: by destruct v.
Qed.

Lemma package_name_not_a_string_example :
  ∃ s',
    _run_androidworld_task Sample.env_ok "./tasks/task_t6.json"
      MoreSample.removal_task_int_package Sample.state0
    = (Ok (failed ("Removal failed: "
                   ++ "'in <string>' requires string as left operand, not "
                   ++ "int")), s').
Proof.
  eexists.
  apply (package_name_not_a_string Sample.env_ok "./tasks/task_t6.json"
           MoreSample.removal_task_int_package Sample.state0
           {[ "package_name" := VInt 7 ]} (VInt 7)
           (mkCompleted 0 "package:com.example.testapp" "")).
  - left. reflexivity.
  - reflexivity.
  - reflexivity.
  - reflexivity.
  - discriminate.
  - reflexivity.
Defined.

Lemma string_length_app (a b : string) :
  String.length (a ++ b) = (String.length a + String.length b)%nat.
Proof. induction a as [|c a IH]; [done |]. simpl. by rewrite IH. Qed.

Lemma string_app_inv_tail (a b c : string) : a ++ c = b ++ c → a = b.
Proof.
  revert b. induction a as [|x a IH]; intros [|y b] H; simpl in H.
  - done.
  - apply (f_equal String.length) in H.
    rewrite !string_length_app in H. simpl in H. lia.
  - apply (f_equal String.length) in H.
    rewrite !string_length_app in H. simpl in H. lia.
  - injection H as -> H. f_equal. by apply IH.
Qed.

(** The path of the task file of the task with the id [id0]. *)
Lemma task_path_inj (dir id1 id2 : string) :
  path_join dir ("task_" ++ id1 ++ ".json")
  = path_join dir ("task_" ++ id2 ++ ".json") →
  id1 = id2.
Proof.
  unfold path_join. cbn [String.prefix].
  change (String.prefix "/" ("task_" ++ id1 ++ ".json")) with false.
  change (String.prefix "/" ("task_" ++ id2 ++ ".json")) with false.
  cbv iota.
  destruct (String.eqb dir "" || ends_with_slash dir).
  - intros H%String.app_inj%String.app_inj. by apply string_app_inv_tail in H.
  - intros H%String.app_inj%String.app_inj%String.app_inj.
    by apply string_app_inv_tail in H.
Qed.

Lemma prepare_ok env task s task_path s' :
  _prepare_task_file env task s = (Ok task_path, s') →
  let task_dir := path_join (working_directory s) "tasks" in
  ∃ id0,
    let doc :=
      mkTaskConfig task (emulator_ip s) (emulator_port s)
        (default 60%Z (t_timeout task)) (default 0%Z (t_retry_count task))
        ("task_" ++ id0 ++ ".log") "screenshots"
        ("task_" ++ id0 ++ "_metrics.json") in
    t_id task = Some id0
    ∧ task_path = path_join task_dir ("task_" ++ id0 ++ ".json")
    ∧ s' = set_trace (trace s ++ [EvMakedirs task_dir None;
                                  EvWrite task_path doc None]) s.
Proof.
  unfold _prepare_task_file, TaskGenerator.getitem. unfold_monad.
  repeat case_match; simplify_eq; intros [= <- <-].
  eexists. split; [reflexivity |]. split; [reflexivity |].
  unfold set_trace. cbn. by rewrite <- !app_assoc.
Qed.

(** X15.  When [_prepare_task_file] returns, it has created the directory
    [tasks] under the working directory and then written one file, whose
    document holds the task, the task's ["timeout"] (60 when absent) and
    ["retry_count"] (0 when absent); these are its only interactions.  In
    one working directory two tasks get the same file exactly when they
    have the same id. *)
Theorem prepare_task_file_paths (env : Env) (task1 task2 : Task)
    (s1 s2 s1' s2' : State) (path1 path2 : string) :
  working_directory s1 = working_directory s2 →
  _prepare_task_file env task1 s1 = (Ok path1, s1') →
  _prepare_task_file env task2 s2 = (Ok path2, s2') →
  (∃ doc,
     events_since s1 s1'
     = [EvMakedirs (path_join (working_directory s1) "tasks") None;
        EvWrite path1 doc None]
     ∧ cfg_task doc = task1
     ∧ cfg_timeout doc = default 60%Z (t_timeout task1)
     ∧ cfg_retry_count doc = default 0%Z (t_retry_count task1))
  ∧ (path1 = path2 ↔ t_id task1 = t_id task2).
Proof.
  intros Hwd (id1 & Hid1 & Hp1 & ->)%prepare_ok
    (id2 & Hid2 & Hp2 & ->)%prepare_ok.
  split.
  - eexists. by rewrite events_since_step.
  - rewrite Hid1, Hid2, Hp1, Hp2, Hwd. split.
    + by intros ->%task_path_inj.
    + by intros [= ->].
Qed.

Lemma prepare_task_file_paths_example :
  ∃ path1 path2 s1' s2',
    _prepare_task_file Sample.env_ok Sample.removal_task Sample.state0
    = (Ok path1, s1')
    ∧ _prepare_task_file Sample.env_ok MoreSample.capture_task Sample.state0
      = (Ok path2, s2')
    ∧ ¬ (path1 = path2).
Proof.
  eexists _, _, _, _. split; [vm_compute; reflexivity |].
  split; [vm_compute; reflexivity |].
  intros Heq.
  pose proof (prepare_task_file_paths Sample.env_ok Sample.removal_task
                MoreSample.capture_task Sample.state0 Sample.state0 _ _ _ _
                eq_refl eq_refl eq_refl) as [_ Hiff].
  apply Hiff in Heq. discriminate Heq.
Defined.

End MoreExecutor.

(** ** More on the orchestrator *)

Section MoreOrchestrator.

Import AgentOrchestrator.

Section MoreEmits.

Context (P : Event → Prop).

Lemma emits_uuid env : (∀ u, P (EvUuid u)) → emits P (uuid_uuid4 env).
Proof. intros HP. apply emits_one. intros s. by eexists. Qed.

Lemma emits_randint env a b :
  (∀ raw, P (EvRandom raw)) → emits P (random_randint env a b).
Proof. intros HP. apply emits_one. intros s. by eexists. Qed.

Lemma emits_choice {A} env (l : list A) :
  (∀ raw, P (EvRandom raw)) → emits P (random_choice env l).
Proof.
  intros HP. destruct l; [by apply emits_raise |].
  apply emits_one. intros s. by eexists.
Qed.

Lemma emits_modify (g : State → State) :
  (∀ s, trace (g s) = trace s) → emits P (modify g).
Proof.
  intros Hg s. exists []. unfold modify. cbn. rewrite Hg, app_nil_r.
  by split.
Qed.

End MoreEmits.

Ltac quiet_tac :=
  repeat first
    [ progress intros
    | apply emits_bind
    | apply emits_try
    | solve [auto with emits]
    | solve [apply emits_uuid; done]
    | solve [apply emits_randint; done]
    | solve [apply emits_choice; done]
    | solve [apply emits_modify; done]
    | solve [apply emits_time; done]
    | solve [apply emits_run; done]
    | solve [apply emits_makedirs; done]
    | solve [apply emits_write; done]
    | case_match ].

Lemma generate_task_no_pause env :
  emits (λ ev, is_sleep ev = false) (generate_task env).
Proof. unfold generate_task, TaskGenerator.generate_task. quiet_tac. Qed.

Lemma execute_task_no_pause env task :
  emits (λ ev, is_sleep ev = false) (execute_task env task).
Proof.
  unfold execute_task, TaskExecutor.execute_task, TaskExecutor.dispatch,
    TaskExecutor._prepare_task_file, TaskExecutor._run_androidworld_task,
    TaskExecutor._execute_navigation_task,
    TaskExecutor._execute_info_gathering_task,
    TaskExecutor._execute_installation_task,
    TaskExecutor._execute_removal_task, TaskExecutor._execute_capture_task,
    TaskExecutor._execute_maintenance_task,
    TaskExecutor._execute_generic_task, TaskExecutor.parameters_of.
  quiet_tac.
Qed.

Lemma run_episode_no_pause env :
  emits (λ ev, is_sleep ev = false) (run_episode env).
Proof.
  unfold run_episode. apply emits_bind; [apply generate_task_no_pause |].
  intros task. apply emits_bind; [by apply emits_time |]. intros T0.
  apply emits_bind; [apply execute_task_no_pause |]. intros r.
  apply emits_bind; [by apply emits_time |]. intros T1.
  apply emits_bind; [by apply emits_modify | intros; apply emits_ret].
Qed.

Lemma pauses_app (tr d : list Event) :
  pauses (tr ++ d) = (pauses tr + pauses d)%nat.
Proof. unfold pauses. by rewrite List.filter_app, length_app. Qed.

Lemma pauses_none (d : list Event) :
  Forall (λ ev, is_sleep ev = false) d → pauses d = 0%nat.
Proof.
  unfold pauses. induction 1 as [|ev d Hev _ IH]; [done |].
  simpl. by rewrite Hev.
Qed.

Lemma generate_task_empty env s :
  task_templates s = [] →
  generate_task env s = (Raise empty_catalog, s).
Proof.
  intros H. unfold generate_task, TaskGenerator.generate_task.
  unfold mbind, M_bind, gets. cbn. by rewrite H.
Qed.

Lemma run_episode_empty env s :
  task_templates s = [] → run_episode env s = (Raise empty_catalog, s).
Proof.
  intros H. unfold run_episode, mbind, M_bind.
  by rewrite generate_task_empty.
Qed.

Lemma generate_task_keeps_settings env : keeps settings (generate_task env).
Proof. unfold generate_task, TaskGenerator.generate_task. keeps_tac. Qed.

Lemma execute_task_keeps_history env task :
  keeps task_history (execute_task env task).
Proof. by apply execute_task_keeps. Qed.

Lemma execute_task_keeps_settings env task :
  keeps settings (execute_task env task).
Proof. by apply execute_task_keeps. Qed.

Lemma run_episode_keeps_settings env : keeps settings (run_episode env).
Proof.
  unfold run_episode.
  apply keeps_bind; [apply generate_task_keeps_settings |]. intros task.
  apply keeps_bind; [by apply keeps_time |]. intros T0.
  apply keeps_bind; [apply execute_task_keeps_settings |]. intros r.
  apply keeps_bind; [by apply keeps_time |]. intros T1.
  apply keeps_bind; [by apply keeps_modify | done].
Qed.

(** An episode over a catalog that is not empty. *)
Lemma run_episode_ok env s :
  task_templates s ≠ [] →
  ∃ task s1 r0 s3,
    generate_task env s = (Ok task, s1)
    ∧ task_history s1 = (task_history s ++ [task])%list
    ∧ is_Some (t_id task) ∧ is_Some (t_name task)
    ∧ let T0 := env_time env (trace s1) in
      let s2 := set_trace (trace s1 ++ [EvTime T0]) s1 in
      execute_task env task s2 = (Ok r0, s3)
      ∧ let T1 := env_time env (trace s3) in
        let r := set_execution_time (Qminus T1 T0) r0 in
        run_episode env s
        = (Ok r, set_results (results s3 ++ [r])
                   (set_trace (trace s3 ++ [EvTime T1]) s3)).
Proof.
  intros Hne.
  destruct (generate_task_from_catalog env s Hne)
    as (task & s1 & template & u & parameters & Hgen & _ & Hname & _ & Hid
        & _ & _ & _ & _ & _ & _ & Hhist & _).
  exists task, s1.
  pose proof (execute_task_eq env task
                (set_trace (trace s1 ++ [EvTime (env_time env (trace s1))])
                   s1)) as Hexec.
  cbv zeta in Hexec. eexists _, _. split; [exact Hgen |].
  split; [exact Hhist |]. split; [by eexists |]. split; [by eexists |].
  cbv zeta. split; [exact Hexec |].
  unfold run_episode, mbind, M_bind, generate_task. rewrite Hgen.
  unfold time_time at 1. cbn [fst snd]. unfold execute_task in Hexec.
  unfold execute_task. rewrite Hexec. reflexivity.
Qed.

(** X16.  With an empty catalog [generate_task] raises the [IndexError]
    of [random.choice], and so does [run_episode]; neither has drawn a
    number, read the clock or touched a history. *)
Theorem empty_catalog_raises (env : Env) (s : State) :
  task_templates s = [] →
  generate_task env s = (Raise empty_catalog, s)
  ∧ run_episode env s = (Raise empty_catalog, s).
Proof.
  intros H. split; [by apply generate_task_empty | by apply run_episode_empty].
Qed.

Lemma empty_catalog_raises_example :
  run_episode Sample.env_ok Sample.state_no_templates
  = (Raise empty_catalog, Sample.state_no_templates).
Proof.
  exact (proj2 (empty_catalog_raises Sample.env_ok Sample.state_no_templates
                  eq_refl)).
Defined.

(** What an episode over a catalog that is not empty does. *)
Lemma run_episode_effect (env : Env) (s : State) :
  task_templates s ≠ [] →
  ∃ task r s' T0 T1 pre d,
    run_episode env s = (Ok r, s')
    ∧ result_for task r
    ∧ results s' = (results s ++ [r])%list
    ∧ task_history s' = (task_history s ++ [task])%list
    ∧ settings s' = settings s
    ∧ execution_time r = Qminus T1 T0
    ∧ events_since s s'
      = (pre ++ [EvTime T0; EvTime (start_time r)] ++ d
         ++ [EvTime (end_time r); EvTime T1])%list
    ∧ (monotone_clock env →
       Qle (Qminus (end_time r) (start_time r)) (execution_time r))
    ∧ pauses (events_since s s') = 0%nat.
Proof.
  intros Hne.
  destruct (run_episode_ok env s Hne)
    as (task & s1 & r0 & s3 & Hgen & Hhist & [u Hid] & [n Hname] & Hexec
        & Hrun).
  cbv zeta in Hexec, Hrun.
  set (T0 := env_time env (trace s1)) in *.
  set (s2 := set_trace (trace s1 ++ [EvTime T0]) s1) in *.
  set (T1 := env_time env (trace s3)) in *.
  pose proof (generate_task_keeps_results env s) as Hr1.
  pose proof (generate_task_keeps_settings env s) as Hs1.
  rewrite Hgen in Hr1, Hs1. cbn [snd] in Hr1, Hs1.
  pose proof (execute_task_keeps_results env task s2) as Hr3.
  pose proof (execute_task_keeps_settings env task s2) as Hs3.
  pose proof (execute_task_keeps_history env task s2) as Hh3.
  rewrite Hexec in Hr3, Hs3, Hh3. unfold s2 in Hr3, Hs3, Hh3.
  cbn [snd results task_history set_trace] in Hr3, Hh3.
  change (settings (set_trace _ s1)) with (settings s1) in Hs3.
  cbn [snd] in Hs3.
  destruct (generate_task_no_pause env s) as (d1 & Hd1 & _).
  rewrite Hgen in Hd1. cbn [snd] in Hd1.
  pose proof (execute_task_eq env task s2) as Heq. cbv zeta in Heq.
  unfold execute_task in Hexec. rewrite Hexec in Heq.
  destruct (dispatch_appends env task
              (set_trace (trace s2 ++ [EvTime (env_time env (trace s2))])
                 s2)) as (d & Hd & _).
  set (t0 := env_time env (trace s2)) in *.
  set (body := TaskExecutor.dispatch env task _) in *.
  set (t1 := env_time env (trace body.2)) in *.
  injection Heq as Hr0 Hs3'.
  assert (Hstart : start_time r0 = t0).
  { rewrite Hr0. unfold result_of. by destruct body.1 as [[[? ?] ?]|?]. }
  assert (Hend : end_time r0 = t1).
  { rewrite Hr0. unfold result_of. by destruct body.1 as [[[? ?] ?]|?]. }
  assert (Hids : task_id r0 = u ∧ task_name r0 = n).
  { rewrite Hr0. unfold result_of. rewrite Hid, Hname.
    by destruct body.1 as [[[? ?] ?]|?]. }
  assert (Htr3 : trace s3
                 = (trace s ++ d1 ++ [EvTime T0; EvTime t0] ++ d
                    ++ [EvTime t1])%list).
  { rewrite Hs3'. cbn [trace set_trace]. rewrite Hd. subst s2.
    cbn [trace set_trace]. rewrite Hd1. by rewrite <- !app_assoc. }
  exists task. eexists _, _, T0, T1, d1, d. split; [exact Hrun |].
  cbn [results set_results set_trace task_history settings execution_time
       set_execution_time start_time end_time task_id task_name
       task_templates androidworld_runner emulator_ip emulator_port
       working_directory trace].
  split; [unfold result_for; cbn; by destruct Hids as [-> ->] |].
  split; [by rewrite Hr3, Hr1 |]. split; [by rewrite Hh3 |].
  split; [exact (eq_trans Hs3 Hs1) |]. split; [done |].
  split; [| split].
  3:{ destruct (run_episode_no_pause env s) as (dall & Hdall & Hq).
      rewrite Hrun in Hdall. cbn [snd] in Hdall.
      rewrite (events_since_app _ _ dall Hdall). by apply pauses_none. }
  - rewrite (events_since_app s _
               (d1 ++ [EvTime T0; EvTime t0] ++ d ++ [EvTime t1; EvTime T1])).
    2:{ cbn [trace set_trace set_results]. rewrite Htr3.
        by rewrite <- !app_assoc. }
    by rewrite Hstart, Hend.
  - intros Hmono. rewrite Hstart, Hend. unfold Qminus.
    apply Qplus_le_compat.
    + unfold T1. rewrite Hs3'. cbn [trace set_trace].
      exact (Hmono (trace body.2) [EvTime t1]).
    + apply Qopp_le_compat.
      exact (Hmono (trace s1) [EvTime T0]).
Qed.




Lemma settings_templates (s s' : State) :
  settings s' = settings s → task_templates s' = task_templates s.
Proof. by intros [= ? ? ? ? ?]. Qed.

Lemma episodes_before (N : Z) (m : nat) :
  (Z.of_nat m < N)%Z →
  List.filter (λ k, (k <? N)%Z) ((λ k, Z.of_nat k) <$> seq 1 m)
  = (λ k, Z.of_nat k) <$> seq 1 m.
Proof.
  induction m as [|m IH]; [done |]. intros Hm.
  rewrite seq_S, fmap_app, List.filter_app, IH by lia. cbn.
  assert ((Z.of_nat (S m) <? N)%Z = true) as -> by (apply Z.ltb_lt; lia).
  done.
Qed.

Lemma episodes_pauses (N : Z) :
  length (List.filter (λ k, (k <? N)%Z) (episodes N))
  = (Z.to_nat N - 1)%nat.
Proof.
  unfold episodes. destruct (Z.to_nat N) as [|m] eqn:Hn; [done |].
  rewrite seq_S, fmap_app, List.filter_app, episodes_before by lia. cbn.
  assert ((Z.of_nat (S m) <? N)%Z = false) as -> by (apply Z.ltb_ge; lia).
  rewrite length_app, length_fmap, length_seq. cbn. lia.
Qed.

Section MoreLoop.

Context (env : Env) (N : Z).

Lemma episode_loop_keeps_settings (todo : list Z) (acc : list TaskResult) :
  keeps settings (episode_loop env N todo acc).
Proof.
  revert acc. induction todo as [|k todo IH]; intros acc; [done |].
  cbn [episode_loop]. apply keeps_bind; [| intros; apply IH].
  unfold episode_body, failed_result, time_sleep. apply keeps_try.
  - apply keeps_bind; [apply run_episode_keeps_settings |]. intros r.
    apply keeps_bind; [| done]. destruct (k <? N)%Z; [| done].
    by apply keeps_emit.
  - intros e. apply keeps_bind; [| done]. unfold failed_result.
    apply keeps_bind; [by apply keeps_time |]. intros t0.
    apply keeps_bind; [by apply keeps_time | done].
Qed.

(** The loop over a catalog that is not empty. *)
Lemma episode_loop_full (todo : list Z) (s : State) :
  task_templates s ≠ [] →
  ∃ rs tasks d s',
    (∀ acc, episode_loop env N todo acc s = (Ok (acc ++ rs)%list, s'))
    ∧ Forall2 result_for tasks rs
    ∧ length rs = length todo
    ∧ results s' = (results s ++ rs)%list
    ∧ task_history s' = (task_history s ++ tasks)%list
    ∧ trace s' = (trace s ++ d)%list
    ∧ pauses d = length (List.filter (λ k, (k <? N)%Z) todo).
Proof.
  revert s. induction todo as [|k todo IH]; intros s Hne.
  - exists [], [], [], s. rewrite !app_nil_r.
    split; [intros acc; by rewrite app_nil_r |].
    split; [constructor | done].
  - destruct (run_episode_effect env s Hne)
      as (task & r & s1 & _ & _ & _ & _ & Hrun & Hfor & Hres & Hhist & Hset
          & _ & _ & _ & Hquiet).
    destruct (run_episode_no_pause env s) as (d1 & Hd1 & _).
    rewrite Hrun in Hd1. cbn [snd] in Hd1.
    rewrite (events_since_app _ _ d1 Hd1) in Hquiet.
    set (s2 := if (k <? N)%Z then set_trace (trace s1 ++ [EvSleep 2]) s1
               else s1).
    assert (Hne2 : task_templates s2 ≠ []).
    { apply settings_templates in Hset. subst s2.
      destruct (k <? N)%Z; cbn; by rewrite Hset. }
    destruct (IH s2 Hne2) as (rs & tasks & d & s' & Hloop & Hfor' & Hlen
                              & Hres' & Hhist' & Htr' & Hp').
    exists (r :: rs), (task :: tasks),
      (d1 ++ (if (k <? N)%Z then [EvSleep 2] else []) ++ d)%list, s'.
    split.
    { intros acc. cbn [episode_loop]. unfold mbind, M_bind.
      rewrite episode_body_eq, Hrun. fold s2. rewrite Hloop.
      by rewrite <- app_assoc. }
    split; [by constructor |]. split; [cbn; by rewrite Hlen |].
    assert (Hs2 : results s2 = results s1 ∧ task_history s2 = task_history s1
                  ∧ trace s2
                    = (trace s1
                       ++ (if (k <? N)%Z then [EvSleep 2] else []))%list).
    { subst s2. destruct (k <? N)%Z; cbn; by rewrite ?app_nil_r. }
    destruct Hs2 as (Hr2 & Hh2 & Ht2).
    split; [rewrite Hres', Hr2, Hres; by rewrite <- app_assoc |].
    split; [rewrite Hhist', Hh2, Hhist; by rewrite <- app_assoc |].
    split; [rewrite Htr', Ht2, Hd1; by rewrite <- !app_assoc |].
    rewrite !pauses_app, Hquiet, Hp'. cbn [List.filter].
    by destruct (k <? N)%Z.
Qed.

(** The loop over an empty catalog: every episode fails, and nothing
    happens but two clock readings for each failure result. *)
Lemma episode_loop_empty (todo : list Z) (s : State) :
  task_templates s = [] →
  ∃ rs d,
    (∀ acc, episode_loop env N todo acc s
            = (Ok (acc ++ rs)%list, set_trace (trace s ++ d) s))
    ∧ Forall2 (λ k r, ∃ t0 t1, r = failure_of k empty_catalog t0 t1) todo rs
    ∧ Forall (λ ev, is_time ev = true) d
    ∧ length d = (2 * length todo)%nat.
Proof.
  revert s. induction todo as [|k todo IH]; intros s Hs.
  - exists [], []. split; [| by repeat constructor].
    intros acc. rewrite !app_nil_r. by destruct s.
  - set (t0 := env_time env (trace s)).
    set (t1 := env_time env (trace s ++ [EvTime t0])).
    destruct (IH (set_trace (trace s ++ [EvTime t0; EvTime t1]) s) Hs)
      as (rs & d & Hloop & Hfor & Htime & Hlen).
    exists (failure_of k empty_catalog t0 t1 :: rs),
      ([EvTime t0; EvTime t1] ++ d)%list.
    split.
    { intros acc. cbn [episode_loop]. unfold mbind, M_bind.
      rewrite episode_body_eq, run_episode_empty by done. cbv zeta.
      cbn [trace set_trace]. fold t0. fold t1.
      replace (set_trace ((trace s ++ [EvTime t0]) ++ [EvTime t1])
                 (set_trace (trace s ++ [EvTime t0]) s))
        with (set_trace (trace s ++ [EvTime t0; EvTime t1]) s)
        by (unfold set_trace; cbn; by rewrite <- app_assoc).
      rewrite Hloop. cbn [trace set_trace].
      unfold set_trace. cbn. by rewrite <- !app_assoc. }
    split; [constructor; [by eexists _, _ | done] |].
    split; [by repeat constructor |]. cbn. rewrite Hlen. lia.
Qed.

End MoreLoop.

(** X18.  A batch over a catalog that is not empty: every episode
    returns, so the [N] results that come back are the results of [N]
    generated tasks, in order; exactly these results are appended to
    [results] and exactly these tasks to the generator's history; and the
    orchestrator pauses [N - 1] times. *)
Theorem batch_with_catalog (env : Env) (N : Z) (s : State) :
  task_templates s ≠ [] →
  ∃ rs tasks s',
    run_multiple_episodes env N s = (Ok rs, s')
    ∧ length rs = Z.to_nat N
    ∧ Forall2 result_for tasks rs
    ∧ results s' = (results s ++ rs)%list
    ∧ task_history s' = (task_history s ++ tasks)%list
    ∧ pauses (events_since s s') = (Z.to_nat N - 1)%nat.
Proof.
  intros Hne. unfold run_multiple_episodes.
  destruct (episode_loop_full env N (episodes N) s Hne)
    as (rs & tasks & d & s' & Hloop & Hfor & Hlen & Hres & Hhist & Htr & Hp).
  exists rs, tasks, s'. split; [apply (Hloop []) |].
  split; [by rewrite Hlen, episodes_length |]. split; [done |].
  split; [done |]. split; [done |].
  by rewrite (events_since_app _ _ d Htr), Hp, episodes_pauses.
Qed.

Lemma batch_with_catalog_example :
  ∃ rs s',
    run_multiple_episodes Sample.env_ok 3 Sample.state0 = (Ok rs, s')
    ∧ length rs = 3%nat
    ∧ results s' = rs
    ∧ length (task_history s') = 3%nat
    ∧ pauses (events_since Sample.state0 s') = 2%nat.
Proof.
  destruct (batch_with_catalog Sample.env_ok 3 Sample.state0)
    as (rs & tasks & s' & Hrun & Hlen & Hfor & Hres & Hhist & Hp).
  - discriminate.
  - exists rs, s'. split; [exact Hrun |]. split; [exact Hlen |].
    split; [exact Hres |]. split; [| exact Hp].
    rewrite Hhist. cbn. rewrite (Forall2_length _ _ _ Hfor). exact Hlen.
Defined.

(** X19.  A batch over an empty catalog: every episode fails.  [N]
    failure results come back, each with the id [episode_<k>_failed] and
    the message of the [IndexError]; nothing happens but two clock
    readings for each of them, so [results] and the generator's history
    are as they were and the orchestrator never pauses. *)
Theorem batch_without_catalog (env : Env) (N : Z) (s : State) :
  task_templates s = [] →
  ∃ rs d,
    run_multiple_episodes env N s = (Ok rs, set_trace (trace s ++ d) s)
    ∧ length rs = Z.to_nat N
    ∧ (∀ (k : nat) r, rs !! k = Some r →
         ∃ t0 t1, r = failure_of (Z.of_nat (S k)) empty_catalog t0 t1)
    ∧ Forall (λ ev, is_time ev = true) d
    ∧ length d = (2 * Z.to_nat N)%nat.
Proof.
  intros Hs. unfold run_multiple_episodes.
  destruct (episode_loop_empty env N (episodes N) s Hs)
    as (rs & d & Hloop & Hfor & Htime & Hlen).
  exists rs, d. split; [apply (Hloop []) |].
  pose proof (Forall2_length _ _ _ Hfor) as Hl.
  rewrite episodes_length in Hl, Hlen.
  split; [done |]. split; [| by split].
  intros k r Hk.
  assert (Hlt : (k < Z.to_nat N)%nat).
  { rewrite Hl. by eapply lookup_lt_Some. }
  destruct (Forall2_lookup_lr _ _ _ k _ _ Hfor (episodes_lookup N k Hlt) Hk)
    as (t0 & t1 & ->).
  by exists t0, t1.
Qed.

Lemma batch_without_catalog_example :
  ∃ rs d,
    run_multiple_episodes Sample.env_ok 2 Sample.state_no_templates
    = (Ok rs, set_trace d Sample.state_no_templates)
    ∧ length rs = 2%nat
    ∧ length d = 4%nat.
Proof.
  destruct (batch_without_catalog Sample.env_ok 2 Sample.state_no_templates
              eq_refl) as (rs & d & Hrun & Hlen & _ & _ & Hd).
  exists rs, d. split; [exact Hrun |]. split; [exact Hlen | exact Hd].
Defined.

(** X20.  No batch writes the catalog or the executor's settings (runner
    path, emulator address, working directory). *)
Theorem batch_keeps_settings (env : Env) (N : Z) (s : State) :
  settings (run_multiple_episodes env N s).2 = settings s.
Proof. exact (episode_loop_keeps_settings env N (episodes N) [] s). Qed.

End MoreOrchestrator.

(** ** The inherited episode, the statistics of all agents, the reset *)

Section MoreAgents.

Import AgentStatistics.



(** X22.  [AgentOrchestrator.run_episode] against the episode it
    overrides, with the same two methods and from the same state: both
    raise the same exception, or both return; the two results then differ
    at most in their start and end time (the override keeps the times
    that the executor measured), and the two runs leave the same trace
    and the same generator history. *)
Theorem run_episode_override (env : Env) (s : State) :
  match AgentOrchestrator.run_episode env s,
        BaseRunner.run_episode env (AgentOrchestrator.generate_task env)
          (AgentOrchestrator.execute_task env) s with
  | (Ok r, s'), (Ok r_base, s_base) =>
      same_but_times r r_base
      ∧ trace s' = trace s_base
      ∧ task_history s' = task_history s_base
      ∧ length (results s') = length (results s_base)
  | (Raise e, s'), (Raise e_base, s_base) => e = e_base ∧ s' = s_base
  | _, _ => False
  end.
Proof.
  unfold AgentOrchestrator.run_episode, BaseRunner.run_episode, mbind,
    M_bind.
  destruct (AgentOrchestrator.generate_task env s) as [[task|e] s1]; [| done].
  unfold time_time, modify, mret, M_ret. cbn [fst snd].
  set (s2 := set_trace _ s1).
  destruct (AgentOrchestrator.execute_task env task s2) as [[r0|e] s3];
    [| done].
  unfold same_but_times. cbn. by rewrite !length_app.
Qed.



(** X24.  [get_comprehensive_statistics] raises only what the
    generator's statistics raise.  When it returns, its three parts are
    the statistics of the three agents, and its summary repeats four
    entries of the orchestrator's: the number of results as
    ["total_episodes"], and the two rates and the average time, or four
    zeros when the orchestrator has no results. *)
Theorem comprehensive_summary (a : Agents) :
  match get_comprehensive_statistics a with
  | Ok cs =>
      cs_orchestrator cs = BaseAgent.get_statistics (results (core a))
      ∧ TaskGenerator.get_task_statistics (task_history (core a))
        = Ok (cs_task_generator cs)
      ∧ cs_task_executor cs = BaseAgent.get_statistics (executor_results a)
      ∧ cs_summary cs !! "total_episodes"
        = Some (SInt (Z.of_nat (length (results (core a)))))
      ∧ (if decide (results (core a) = [])
         then cs_summary cs = empty_summary
         else cs_summary cs !! "overall_success_rate"
              = cs_orchestrator cs !! "success_rate"
              ∧ cs_summary cs !! "average_execution_time"
                = cs_orchestrator cs !! "avg_time"
              ∧ cs_summary cs !! "flakiness_rate"
                = cs_orchestrator cs !! "flakiness_rate")
  | Raise e =>
      TaskGenerator.get_task_statistics (task_history (core a)) = Raise e
  end.
Proof.
  unfold get_comprehensive_statistics.
  destruct (TaskGenerator.get_task_statistics (task_history (core a)))
    as [gs|e]; [| done].
  cbn [cs_orchestrator cs_task_generator cs_task_executor cs_summary].
  split; [done |]. split; [done |]. split; [done |].
  destruct (results (core a)) as [|r l] eqn:Hrs.
  - split; [done |]. by rewrite decide_True by done.
  - rewrite decide_False by done.
    destruct (lookup_counts r l) as (Ht & _).
    pose proof (lookup_success_rate r l) as Hsr.
    pose proof (lookup_flakiness_rate r l) as Hfr. cbv zeta in Hfr.
    assert (Hav : is_Some (BaseAgent.get_statistics (r :: l) !! "avg_time")).
    { unfold BaseAgent.get_statistics. by simplify_map_eq. }
    destruct Hav as [av Hav].
    rewrite Ht, Hsr, Hfr, Hav. cbn [default from_option].
    split; [by rewrite lookup_insert_eq |].
    split; [by rewrite lookup_insert_ne, lookup_insert_eq by done |].
    split; [by rewrite !lookup_insert_ne, lookup_insert_eq by done |].
    by rewrite !lookup_insert_ne, lookup_singleton_eq by done.
Qed.

(** X25.  [reset_all_agents] empties the [results] of the three agents
    and nothing else: the generator's history stays, so after a reset
    [get_agent_status] still reports the tasks generated before it, and
    [get_comprehensive_statistics] still returns (or raises) the same
    generator statistics, beside empty statistics for the orchestrator
    and the executor and a summary of zeros.  A second reset changes
    nothing. *)
Theorem reset_all_agents_effect (a : Agents) :
  let a' := reset_all_agents a in
  results (core a') = []
  ∧ generator_results a' = [] ∧ executor_results a' = []
  ∧ task_history (core a') = task_history (core a)
  ∧ settings (core a') = settings (core a)
  ∧ reset_all_agents a' = a'
  ∧ get_agent_status a'
    = (mkAgentStatus (agent_name a) "active" 0,
       mkAgentStatus "TaskGenerator" "active"
         (length (task_history (core a))),
       mkAgentStatus "TaskExecutor" "active" 0)
  ∧ get_comprehensive_statistics a'
    = match TaskGenerator.get_task_statistics (task_history (core a)) with
      | Ok generator_stats =>
          Ok (mkComprehensiveStats ∅ generator_stats ∅ empty_summary)
      | Raise e => Raise e
      end.
Proof.
  intros a'. unfold a', reset_all_agents, get_agent_status,
    get_comprehensive_statistics, BaseRunner.reset, modify.
  cbn [snd core results set_results generator_results executor_results
       task_history agent_name settings task_templates androidworld_runner
       emulator_ip emulator_port working_directory trace].
  repeat split.
Qed.

End MoreAgents.

(** ** More on the HTTP front door *)

Section MoreFrontDoor.

Import WebServer.

Ltac unfold_server :=
  unfold responds, post_data, do_GET, do_POST, _handle_task, _handle_health,
    _handle_ready, _handle_metrics, _handle_status, _handle_trace,
    _handle_not_found, _handle_error, _execute_task, _send_json_response,
    _send_text_response, get_health_status, utcnow_isoformat,
    log_task_start, log_task_completion, log_error, Py.get in *.

(** Name the readings of the clock, so that rewriting the trace does not
    reach into them. *)
Ltac name_readings env :=
  repeat match goal with
         | |- context [env_time env ?tr] =>
             let t := fresh "t" in set (t := env_time env tr); clearbody t
         end.


(** X27.  [POST /task] with a [Content-Length] that is not a number:
    [int] raises before the body is read, outside the [try] of
    [_handle_task], so the answer is the 500 of [_handle_error] with the
    message of the exception; the error is logged when there is an
    observability manager, and no task is executed. *)
Theorem post_task_bad_content_length (env : Env) (h : Handler)
    (req : Request) (s : State) (v : string) (e : exn) :
  env_url_path env (req_path req) = "/task" →
  req_content_length req = Some v →
  env_int env v = Raise e →
  ∃ resp,
    do_POST env h req s
    = (Ok resp,
       match observability_manager h with
       | Some _ => set_trace (trace s ++ [EvLogError e (req_path req)]) s
       | None => s
       end)
    ∧ status_code resp = 500%Z
    ∧ payload resp = PJson (VDict {[ "error" := VStr (str e) ]}).
Proof.
  intros Hpath Hlen Hint. unfold_server. unfold_monad.
  rewrite Hpath, Hlen, Hint. cbn.
  destruct (observability_manager h); cbn; by eexists.
Qed.

Lemma post_task_bad_content_length_example :
  ∃ resp,
    do_POST Sample.env_ok MoreSample.handler_observed
      MoreSample.post_task_bad_length Sample.state0
    = (Ok resp,
       set_trace
         [EvLogError
            (ValueError "invalid literal for int() with base 10: 'abc'")
            "/task"] Sample.state0)
    ∧ status_code resp = 500%Z
    ∧ payload resp
      = PJson (VDict {[ "error" :=
                          VStr "invalid literal for int() with base 10: 'abc'"
                     ]}).
Proof.
  exact (post_task_bad_content_length Sample.env_ok
           MoreSample.handler_observed MoreSample.post_task_bad_length
           Sample.state0 "abc"
           (ValueError "invalid literal for int() with base 10: 'abc'")
           eq_refl eq_refl eq_refl).
Defined.

(** X28.  [POST /task] with a JSON object: the simulated execution
    pauses once, for a tenth of a second, between two clock readings
    whose difference is the ["duration"] of the answer.  With an
    observability manager the start and the completion of the task are
    logged, in this order and around the execution, with the id and type
    ["unknown"] for a key that the object lacks (the answer itself
    carries [None] there); without a manager nothing is logged. *)
Theorem post_task_logging (env : Env) (h : Handler) (req : Request)
    (s : State) (raw text : string) (d : gmap string pyval) :
  env_url_path env (req_path req) = "/task" →
  post_data env req = Ok raw →
  env_decode env raw = Ok text →
  env_json_loads env text = Ok (VDict d) →
  let id0 := default (VStr "unknown") (d !! "task_id") in
  let type0 := default (VStr "unknown") (d !! "task_type") in
  ∃ resp s' result t0 t1 pre post,
    do_POST env h req s = (Ok resp, s')
    ∧ status_code resp = 200%Z
    ∧ payload resp = PJson (VDict result)
    ∧ result !! "task_id" = Some (default VNone (d !! "task_id"))
    ∧ result !! "duration" = Some (VFloat (Qminus t1 t0))
    ∧ events_since s s'
      = (pre ++ [EvTime t0; EvSleep (1 # 10); EvTime t1] ++ post)%list
    ∧ pauses (events_since s s') = 1%nat
    ∧ List.filter is_log (events_since s s')
      = match observability_manager h with
        | Some _ =>
            [ EvLogTaskStart id0 type0 (VDict d);
              EvLogTaskCompletion id0 type0 (VDict result)
                (VFloat (Qminus t1 t0)) (VBool true) ]
        | None => []
        end.
Proof.
  intros Hpath Hraw Hdec Hjson id0 type0. unfold_server. rewrite Hpath. cbn.
  destruct (match req_content_length req with
            | Some v => env_int env v
            | None => Ok 0%Z
            end) as [n|e]; [| done].
  injection Hraw as <-. unfold_monad. cbn. rewrite Hdec. cbn.
  rewrite Hjson. cbn.
  destruct (observability_manager h); cbn -[events_since]; name_readings env.
  - eexists _, _, _, _, _, [_], [_; _]. split; [reflexivity |].
    cbn -[events_since]. split; [done |]. split; [reflexivity |].
    split; [by simplify_map_eq |]. split; [by simplify_map_eq |].
    erewrite events_since_app;
      [| cbn [trace set_trace]; rewrite <- !app_assoc; reflexivity].
    split; [reflexivity |]. split; [reflexivity |].
    cbn. repeat f_equal; by simplify_map_eq.
  - eexists _, _, _, _, _, [], [_]. split; [reflexivity |].
    cbn -[events_since]. split; [done |]. split; [reflexivity |].
    split; [by simplify_map_eq |]. split; [by simplify_map_eq |].
    erewrite events_since_app;
      [| cbn [trace set_trace]; rewrite <- !app_assoc; reflexivity].
    split; [reflexivity |]. split; reflexivity.
Qed.

Lemma post_task_logging_example :
  ∃ resp s',
    do_POST Sample.env_ok MoreSample.handler_observed
      (Sample.post_task Sample.body_object) Sample.state0 = (Ok resp, s')
    ∧ status_code resp = 200%Z
    ∧ pauses (events_since Sample.state0 s') = 1%nat
    ∧ length (List.filter is_log (events_since Sample.state0 s')) = 2%nat.
Proof.
  destruct (post_task_logging Sample.env_ok MoreSample.handler_observed
              (Sample.post_task Sample.body_object) Sample.state0
              Sample.body_object Sample.body_object
              {[ "task_id" := VStr "t1"; "task_type" := VStr "demo" ]}
              eq_refl eq_refl eq_refl eq_refl)
    as (resp & s' & result & t0 & t1 & pre & post & Hrun & Hcode & _ & _ & _
        & _ & Hp & Hlog).
  exists resp, s'. split; [exact Hrun |]. split; [exact Hcode |].
  split; [exact Hp |]. by rewrite Hlog.
Defined.

(** X29.  [POST /task] with a JSON document that is not an object: the
    first [.get] on it raises [AttributeError], which the [try] of
    [_handle_task] turns into a 500 with the message of the exception.
    Nothing is logged, not even the error.  With an observability manager
    the exception comes before the execution; without one it comes after
    the pause of the simulated execution. *)
Theorem post_task_not_an_object (env : Env) (h : Handler) (req : Request)
    (s : State) (raw text : string) (v : pyval) :
  env_url_path env (req_path req) = "/task" →
  post_data env req = Ok raw →
  env_decode env raw = Ok text →
  env_json_loads env text = Ok v →
  is_dict v = false →
  ∃ resp s',
    do_POST env h req s = (Ok resp, s')
    ∧ status_code resp = 500%Z
    ∧ payload resp
      = PJson (VDict {[ "error" :=
                          VStr ("'" ++ type_name v
                                ++ "' object has no attribute 'get'") ]})
    ∧ List.filter is_log (events_since s s') = []
    ∧ pauses (events_since s s')
      = match observability_manager h with
        | Some _ => 0%nat
        | None => 1%nat
        end.
Proof.
  intros Hpath Hraw Hdec Hjson Hv. unfold_server. rewrite Hpath. cbn.
  destruct (match req_content_length req with
            | Some v => env_int env v
            | None => Ok 0%Z
            end) as [n|e]; [| done].
  injection Hraw as <-. unfold_monad. cbn. rewrite Hdec. cbn.
  rewrite Hjson. cbn.
  destruct (observability_manager h), v; try discriminate Hv;
    cbn -[events_since].
  all: eexists _, _; split; [reflexivity |]; cbn -[events_since].
  all: split; [done |]; split; [done |].
  all: first
    [ rewrite events_since_same; split; reflexivity
    | erewrite events_since_app;
      [| cbn [trace set_trace]; rewrite <- ?app_assoc; reflexivity];
      split; reflexivity ].
Qed.

Lemma post_task_not_an_object_example :
  ∃ resp s',
    do_POST Sample.env_ok Sample.handler
      (Sample.post_task Sample.body_array) Sample.state0 = (Ok resp, s')
    ∧ status_code resp = 500%Z
    ∧ payload resp
      = PJson (VDict {[ "error" :=
                          VStr "'list' object has no attribute 'get'" ]})
    ∧ pauses (events_since Sample.state0 s') = 1%nat.
Proof.
  destruct (post_task_not_an_object Sample.env_ok Sample.handler
              (Sample.post_task Sample.body_array) Sample.state0
              Sample.body_array Sample.body_array (VList [VInt 1])
              eq_refl eq_refl eq_refl eq_refl eq_refl)
    as (resp & s' & Hrun & Hcode & Hpay & _ & Hp).
  exists resp, s'.
  exact (conj Hrun (conj Hcode (conj Hpay Hp))).
Defined.


End MoreFrontDoor.
